(** * FarmSense OS: the forensic ledger, the soil filter, the kriging grid
      and the irrigation controller, embedded from the Python sources.

    Conventions of the embedding.
    - A Python [dict] with string keys is a [gmap string _]; a missing key is
      a lookup that returns [None].
    - A Python [str] is a [string] whose characters are code points below 256.
    - A Python [float] is the rational (module [Filter]: the real) number it
      denotes and arithmetic is exact; [int] is [Z].
    - A function that may raise returns an [option]; [None] is the exception.
      The store, where the kind of exception and the state it leaves matter,
      returns a [result] and threads the connection.
    - Reading the wall clock ([datetime.utcnow().isoformat()]) is an explicit
      argument: the text the clock returned. *)

From Stdlib Require Import ZArith QArith Qround Qabs Reals Lra Lia String Ascii List.
From stdpp Require Import base option list gmap strings.
Import ListNotations.

Local Open Scope Z_scope.

(** * Python values and their JSON text *)

Inductive pyval : Type :=
| PNone
| PBool (b : bool)
| PInt (z : Z)
| PFloat (q : Q)
| PStr (s : string).

Abbreviation pydict := (gmap string pyval).

(** Python truthiness, as used by [if stored_hash] and [if raw_data]. *)
Definition truthy (v : pyval) : bool :=
  match v with
  | PNone => false
  | PBool b => b
  | PInt z => negb (z =? 0)
  | PFloat q => negb (Qeq_bool q 0)
  | PStr s => negb (String.eqb s "")
  end.

Module Text.

Definition dquote : ascii := ascii_of_nat 34.
Definition backslash : ascii := ascii_of_nat 92.

Definition digit_char (d : Z) : ascii := ascii_of_N (Z.to_N (48 + d)).

Definition hex_digit (d : Z) : ascii :=
  ascii_of_N (Z.to_N (if d <? 10 then 48 + d else 87 + d)).

Fixpoint digits_fuel (fuel : nat) (n : Z) (acc : string) : string :=
  match fuel with
  | O => acc
  | S fuel' =>
      let acc' := String (digit_char (n mod 10)) acc in
      if n / 10 =? 0 then acc' else digits_fuel fuel' (n / 10) acc'
  end.

(** Decimal text of a natural number ([str(n)] for [n >= 0]). *)
Definition string_of_nonneg (n : Z) : string :=
  digits_fuel (S (Z.to_nat (Z.log2 n))) n "".

Definition string_of_Z (z : Z) : string :=
  if z <? 0 then String "-" (string_of_nonneg (- z)) else string_of_nonneg z.

Fixpoint zeros (n : nat) : string :=
  match n with
  | O => ""
  | S n' => String "0" (zeros n')
  end.

Definition rev_string (s : string) : string :=
  string_of_list_ascii (rev (list_ascii_of_string s)).

Fixpoint drop_leading_zeros (s : string) : string :=
  match s with
  | String "0" rest => drop_leading_zeros rest
  | _ => s
  end.

Definition strip_trailing_zeros (s : string) : string :=
  rev_string (drop_leading_zeros (rev_string s)).

(** [join sep parts] is Python's [sep.join(parts)]. *)
Fixpoint join (sep : string) (parts : list string) : string :=
  match parts with
  | [] => ""
  | [p] => p
  | p :: rest => (p ++ sep ++ join sep rest)%string
  end.

(** [s.startswith(p)]. *)
Definition startswith (s p : string) : bool := String.prefix p s.

(** [s[:n]]. *)
Definition take_prefix (n : nat) (s : string) : string := String.substring 0 n s.

End Text.

(** ** Numbers *)

Module Num.

(** [floor(q + 1/2)] with exact ties sent to the even neighbour, the rule of
    Python's [round]. *)
Definition round_half_even (q : Q) : Z :=
  let f := Qfloor q in
  match Qcompare (q - inject_Z f) (1 # 2) with
  | Lt => f
  | Gt => f + 1
  | Eq => if Z.even f then f else f + 1
  end.

Definition pow10 (k : Z) : Q := Qpower (10 # 1) k.

(** [round(q, ndigits)] on a float. *)
Definition py_round (q : Q) (ndigits : Z) : Q :=
  Qred (inject_Z (round_half_even (q * pow10 ndigits)) / pow10 ndigits).

(** [int(q)]: truncation toward zero. *)
Definition py_int (q : Q) : Z := Z.quot (Qnum q) (Zpos (Qden q)).

Definition ndigits (n : Z) : Z := Z.of_nat (String.length (Text.string_of_nonneg n)).

Definition fixed_notation (ds : string) (decpt : Z) : string :=
  let len := Z.of_nat (String.length ds) in
  if decpt <=? 0 then ("0." ++ Text.zeros (Z.to_nat (- decpt)) ++ ds)%string
  else if len <=? decpt then (ds ++ Text.zeros (Z.to_nat (decpt - len)) ++ ".0")%string
  else (String.substring 0 (Z.to_nat decpt) ds ++ "." ++
        String.substring (Z.to_nat decpt) (Z.to_nat (len - decpt)) ds)%string.

Definition exponent_notation (ds : string) (decpt : Z) : string :=
  let e := decpt - 1 in
  let mant :=
    match ds with
    | String c EmptyString => String c EmptyString
    | String c rest => String c (String "." rest)
    | EmptyString => EmptyString
    end in
  let etxt := Text.string_of_nonneg (Z.abs e) in
  let etxt := if Z.abs e <? 10 then String "0" etxt else etxt in
  let sign : string := if e <? 0 then "-"%string else "+"%string in
  (mant ++ "e" ++ sign ++ etxt)%string.

(** [repr(q)] as [json.dumps] writes a float: the digits of [q] (at most 17
    significant ones, which is every digit of a value rounded by [round]),
    laid out as CPython does: exponent notation when the decimal point falls
    more than four places left of the first digit or more than sixteen right
    of it, and a trailing [.0] on whole numbers. *)
Definition float_repr (q : Q) : string :=
  match Qnum q with
  | Z0 => "0.0"%string
  | _ =>
      let a := Qabs q in
      let est := ndigits (Z.abs (Qnum q)) - ndigits (Zpos (Qden q)) in
      let e10 := if Qle_bool (pow10 est) a then est else est - 1 in
      let m17 := round_half_even (a * pow10 (16 - e10)) in
      let '(m, e10) := if m17 =? 10 ^ 17 then (10 ^ 16, e10 + 1) else (m17, e10) in
      let ds := Text.strip_trailing_zeros (Text.string_of_nonneg m) in
      let decpt := e10 + 1 in
      let body :=
        if (-4 <? decpt) && (decpt <=? 16)
        then fixed_notation ds decpt else exponent_notation ds decpt in
      if Qnum q <? 0 then String "-" body else body
  end.

End Num.

(** ** [json.dumps(data, sort_keys=True, separators=(',', ':'))] *)

Module Json.

Definition hex4 (n : Z) : string :=
  String (Text.hex_digit (Z.shiftr n 12 mod 16))
    (String (Text.hex_digit (Z.shiftr n 8 mod 16))
       (String (Text.hex_digit (Z.shiftr n 4 mod 16))
          (String (Text.hex_digit (n mod 16)) EmptyString))).

(** One character of a string literal; [ensure_ascii] is on, so everything
    outside the printable ASCII range is written as a [\u] escape. *)
Definition escape_char (c : ascii) : string :=
  let n := Z.of_N (N_of_ascii c) in
  if n =? 34 then String Text.backslash (String Text.dquote EmptyString)
  else if n =? 92 then String Text.backslash (String Text.backslash EmptyString)
  else if n =? 10 then String Text.backslash "n"
  else if n =? 13 then String Text.backslash "r"
  else if n =? 9 then String Text.backslash "t"
  else if n =? 8 then String Text.backslash "b"
  else if n =? 12 then String Text.backslash "f"
  else if (n <? 32) || (126 <? n) then String Text.backslash (String "u" (hex4 n))
  else String c EmptyString.

Fixpoint escape (s : string) : string :=
  match s with
  | EmptyString => EmptyString
  | String c rest => (escape_char c ++ escape rest)%string
  end.

Definition quoted (s : string) : string :=
  String Text.dquote (escape s ++ String Text.dquote EmptyString).

Definition value (v : pyval) : string :=
  match v with
  | PNone => "null"%string
  | PBool true => "true"%string
  | PBool false => "false"%string
  | PInt z => Text.string_of_Z z
  | PFloat q => Num.float_repr q
  | PStr s => quoted s
  end.

Fixpoint insert_by_key (kv : string * pyval) (l : list (string * pyval))
  : list (string * pyval) :=
  match l with
  | [] => [kv]
  | kv' :: rest =>
      if String.leb (fst kv) (fst kv') then kv :: l
      else kv' :: insert_by_key kv rest
  end.

(** The items of a dict in the order [sort_keys=True] writes them. *)
Definition sorted_items (d : pydict) : list (string * pyval) :=
  foldr insert_by_key [] (map_to_list d).

Definition member (kv : string * pyval) : string :=
  (quoted (fst kv) ++ ":" ++ value (snd kv))%string.

Definition dumps (d : pydict) : string :=
  ("{" ++ Text.join "," (map member (sorted_items d)) ++ "}")%string.

End Json.

(** * SHA-256 and HMAC-SHA256 ([hashlib.sha256], [hmac.new]) *)

Module SHA256.

Definition w32 (x : Z) : Z := Z.land x 0xFFFFFFFF.
Definition add32 (a b : Z) : Z := w32 (a + b).
Definition rotr (n x : Z) : Z := w32 (Z.lor (Z.shiftr x n) (Z.shiftl x (32 - n))).
Definition shr (n x : Z) : Z := Z.shiftr x n.
Definition not32 (x : Z) : Z := Z.lxor x 0xFFFFFFFF.

Definition Ch (x y z : Z) : Z := Z.lxor (Z.land x y) (Z.land (not32 x) z).
Definition Maj (x y z : Z) : Z :=
  Z.lxor (Z.lxor (Z.land x y) (Z.land x z)) (Z.land y z).
Definition bsig0 (x : Z) : Z := Z.lxor (Z.lxor (rotr 2 x) (rotr 13 x)) (rotr 22 x).
Definition bsig1 (x : Z) : Z := Z.lxor (Z.lxor (rotr 6 x) (rotr 11 x)) (rotr 25 x).
Definition ssig0 (x : Z) : Z := Z.lxor (Z.lxor (rotr 7 x) (rotr 18 x)) (shr 3 x).
Definition ssig1 (x : Z) : Z := Z.lxor (Z.lxor (rotr 17 x) (rotr 19 x)) (shr 10 x).

Definition is_prime (n : nat) : bool :=
  forallb (fun d => negb (Nat.eqb (Nat.modulo n d) 0)) (seq 2 (n - 2)).

(** The first [count] primes, found below [bound]. *)
Definition primes (count bound : nat) : list Z :=
  List.map Z.of_nat (firstn count (List.filter is_prime (seq 2 bound))).

(** The integer cube root, one bit at a time from bit [bits - 1] down. *)
Fixpoint cube_root (bits : nat) (x r : Z) : Z :=
  match bits with
  | O => r
  | S bits' =>
      let r' := r + 2 ^ Z.of_nat bits' in
      cube_root bits' x (if r' * r' * r' <=? x then r' else r)
  end.

(** The round constants: the first 32 bits of the fractional parts of the
    cube roots of the first 64 primes. *)
Definition K : list Z :=
  Eval vm_compute in
    List.map (fun p => w32 (cube_root 40 (p * 2 ^ 96) 0)) (primes 64 312).

(** The initial hash value: the same of the square roots of the first 8
    primes. *)
Definition H0 : list Z :=
  Eval vm_compute in List.map (fun p => w32 (Z.sqrt (p * 2 ^ 64))) (primes 8 20).

(** The [n] low bytes of [x], most significant first. *)
Fixpoint be_bytes (n : nat) (x : Z) : list Z :=
  match n with
  | O => []
  | S n' => Z.land (Z.shiftr x (8 * Z.of_nat n')) 0xFF :: be_bytes n' x
  end.

Definition pad (msg : list Z) : list Z :=
  let len := Z.of_nat (List.length msg) in
  msg ++ 0x80 :: repeat 0 (Z.to_nat ((55 - len) mod 64)) ++ be_bytes 8 (8 * len).

Fixpoint words (n : nat) (bs : list Z) : list Z :=
  match n, bs with
  | S n', b0 :: b1 :: b2 :: b3 :: rest =>
      (Z.shiftl b0 24 + Z.shiftl b1 16 + Z.shiftl b2 8 + b3) :: words n' rest
  | _, _ => []
  end.

(** The message schedule, most recent word first. *)
Fixpoint schedule (n : nat) (rev_w : list Z) : list Z :=
  match n with
  | O => rev_w
  | S n' =>
      let w := add32 (add32 (ssig1 (nth 1 rev_w 0)) (nth 6 rev_w 0))
                     (add32 (ssig0 (nth 14 rev_w 0)) (nth 15 rev_w 0)) in
      schedule n' (w :: rev_w)
  end.

Record regs := Regs { ra : Z; rb : Z; rc : Z; rd : Z; re : Z; rf : Z; rg : Z; rh : Z }.

Definition round (s : regs) (kw : Z * Z) : regs :=
  let '(k, w) := kw in
  let t1 := add32 (add32 (add32 (rh s) (bsig1 (re s)))
                         (add32 (Ch (re s) (rf s) (rg s)) k)) w in
  let t2 := add32 (bsig0 (ra s)) (Maj (ra s) (rb s) (rc s)) in
  Regs (add32 t1 t2) (ra s) (rb s) (rc s) (add32 (rd s) t1) (re s) (rf s) (rg s).

Definition of_list (h : list Z) : regs :=
  Regs (nth 0 h 0) (nth 1 h 0) (nth 2 h 0) (nth 3 h 0)
       (nth 4 h 0) (nth 5 h 0) (nth 6 h 0) (nth 7 h 0).

Definition compress (h : list Z) (block : list Z) : list Z :=
  let w := rev (schedule 48 (rev (words 16 block))) in
  let s := fold_left round (combine K w) (of_list h) in
  List.map (fun p => add32 (fst p) (snd p))
    (combine h [ra s; rb s; rc s; rd s; re s; rf s; rg s; rh s]).

Fixpoint blocks (n : nat) (h : list Z) (bs : list Z) : list Z :=
  match n with
  | O => h
  | S n' => blocks n' (compress h (firstn 64 bs)) (skipn 64 bs)
  end.

Definition digest (msg : list Z) : list Z :=
  let p := pad msg in
  flat_map (be_bytes 4) (blocks (Nat.div (List.length p) 64) H0 p).

Definition xor_pad (c : Z) (key : list Z) : list Z :=
  List.map (fun b => Z.lxor b c) (key ++ repeat 0 (64 - List.length key)).

(** HMAC with a 64-byte block: a longer key is hashed first. *)
Definition hmac (key msg : list Z) : list Z :=
  let key := if (64 <? Z.of_nat (List.length key)) then digest key else key in
  digest (xor_pad 0x5c key ++ digest (xor_pad 0x36 key ++ msg)).

End SHA256.

Module Bytes.

(** [s.encode()]: UTF-8 of a string of code points below 256. *)
Definition utf8_char (c : ascii) : list Z :=
  let n := Z.of_N (N_of_ascii c) in
  if n <? 128 then [n] else [Z.lor 0xC0 (Z.shiftr n 6); Z.lor 0x80 (Z.land n 0x3F)].

Definition encode (s : string) : list Z :=
  flat_map utf8_char (list_ascii_of_string s).

(** [bytes.hex()] *)
Fixpoint hex (bs : list Z) : string :=
  match bs with
  | [] => EmptyString
  | b :: rest =>
      String (Text.hex_digit (Z.shiftr b 4))
        (String (Text.hex_digit (Z.land b 15)) (hex rest))
  end.

End Bytes.

(** [hashlib.sha256(s.encode()).hexdigest()] *)
Definition sha256_hex (s : string) : string :=
  Bytes.hex (SHA256.digest (Bytes.encode s)).

(** [hmac.new(key.encode(), msg.encode(), hashlib.sha256).hexdigest()] *)
Definition hmac_sha256_hex (key msg : string) : string :=
  Bytes.hex (SHA256.hmac (Bytes.encode key) (Bytes.encode msg)).

(** * forensic/integrity.py *)

Module Integrity.

(** [d.get(key, default)] *)
Definition get (d : pydict) (key : string) (dflt : pyval) : pyval :=
  default dflt (d !! key).

(** [if d:] on a dict. *)
Definition nonempty (d : pydict) : bool := negb (Nat.eqb (size d) 0).

(** [round(v, ndigits)] on whatever the dict holds: a float is rounded, an
    int (or bool) is returned as an int, anything else raises [TypeError]. *)
Definition round_value (v : pyval) (ndigits : Z) : option pyval :=
  match v with
  | PFloat q => Some (PFloat (Num.py_round q ndigits))
  | PInt z => Some (PInt z)
  | PBool b => Some (PInt (if b then 1 else 0))
  | PNone | PStr _ => None
  end.

(** [a == b] between a [str] and a dict value. *)
Definition str_eq (a : string) (b : pyval) : bool :=
  match b with
  | PStr s => String.eqb a s
  | _ => false
  end.

Definition of_float (o : option Q) : pyval :=
  match o with
  | Some q => PFloat q
  | None => PNone
  end.

Record ForensicHasher := { signing_key : option string }.

Definition genesis_hash : string := Text.zeros 64.

Definition allowed_keys : list string :=
  ["soil_temp_c"; "water_potential"; "signal_quality"]%string.

(** The canonical dict that [hash_measurement] serialises. *)
Definition canonical_data (sensor_id timestamp depth_inches rounded_vwc : pyval)
    (previous_hash : string) (additional_data : option pydict) : pydict :=
  let data : pydict :=
    <["previous_hash"%string := PStr previous_hash]>
      (<["vwc"%string := rounded_vwc]>
         (<["depth_inches"%string := depth_inches]>
            (<["timestamp"%string := timestamp]>
               (<["sensor_id"%string := sensor_id]> ∅)))) in
  match additional_data with
  | Some extra =>
      if nonempty extra then
        foldl (fun (d : pydict) key =>
                 match extra !! key with
                 | Some v => <[key := v]> d
                 | None => d
                 end) data allowed_keys
      else data
  | None => data
  end.

Definition hash_measurement (sensor_id timestamp depth_inches vwc : pyval)
    (previous_hash : string) (additional_data : option pydict) : option string :=
  rounded ← round_value vwc 6;
  Some (sha256_hex
          (Json.dumps (canonical_data sensor_id timestamp depth_inches rounded
                         previous_hash additional_data))).

(** One level of the Merkle tree: neighbours are concatenated and hashed, an
    odd last element is paired with itself. *)
Fixpoint pair_level (level : list string) : list string :=
  match level with
  | lft :: rgt :: rest => sha256_hex (lft ++ rgt) :: pair_level rest
  | [lft] => [sha256_hex (lft ++ lft)]
  | [] => []
  end.

(** [while len(current_level) > 1]; the level at least halves each turn, so
    [length hashes] turns are enough. *)
Fixpoint merkle_loop (fuel : nat) (current_level : list string) : list string :=
  match fuel with
  | O => current_level
  | S fuel' =>
      if Nat.ltb 1 (List.length current_level)
      then merkle_loop fuel' (pair_level current_level)
      else current_level
  end.

Definition _compute_merkle_root (hashes : list string) : string :=
  match hashes with
  | [] => genesis_hash
  | [h] => h
  | _ => List.hd genesis_hash (merkle_loop (List.length hashes) hashes)
  end.

(** The loop of [hash_batch]: [measurement['key']] raises on a missing key. *)
Fixpoint batch_hashes (measurements : list pydict) (current_previous : string)
  : option (list string) :=
  match measurements with
  | [] => Some []
  | measurement :: rest =>
      sensor_id ← measurement !! "sensor_id"%string;
      timestamp ← measurement !! "timestamp"%string;
      depth_inches ← measurement !! "depth_inches"%string;
      vwc ← measurement !! "volumetric_water_content"%string;
      m_hash ← hash_measurement sensor_id timestamp depth_inches vwc
                 current_previous (Some measurement);
      hashes ← batch_hashes rest m_hash;
      Some (m_hash :: hashes)
  end.

(** Returns [(batch_hash, merkle_root)]. *)
Definition hash_batch (measurements : list pydict) (previous_hash timestamp : string)
  : option (string * string) :=
  match measurements with
  | [] => Some (previous_hash, previous_hash)
  | _ =>
      measurement_hashes ← batch_hashes measurements previous_hash;
      let merkle_root := _compute_merkle_root measurement_hashes in
      let batch_data : pydict :=
        <["previous_batch_hash"%string := PStr previous_hash]>
          (<["last_hash"%string := PStr (List.last measurement_hashes ""%string)]>
             (<["first_hash"%string := PStr (List.hd ""%string measurement_hashes)]>
                (<["merkle_root"%string := PStr merkle_root]>
                   (<["count"%string := PInt (Z.of_nat (List.length measurements))]>
                      (<["timestamp"%string := PStr timestamp]> ∅))))) in
      Some (sha256_hex (Json.dumps batch_data), merkle_root)
  end.

Definition sign_hash (hasher : ForensicHasher) (hash_value key_id : string) : string :=
  match signing_key hasher with
  | Some key =>
      if String.eqb key "" then ("unsigned:" ++ key_id)%string
      else ("hmac:" ++ key_id ++ ":" ++ hmac_sha256_hex key hash_value)%string
  | None => ("unsigned:" ++ key_id)%string
  end.

(** One entry of [verification_results]. *)
Record VerificationResult := {
  vr_timestamp : option pyval;
  vr_sensor_id : option pyval;
  computed_hash : string;
  stored_hash : pyval;
  hash_valid : bool;
  chain_valid : bool
}.

(** The report dict; a key the branch does not write is [None]. *)
Record ChainReport := {
  valid : bool;
  error : option string;
  chain_length : nat;
  valid_hashes : option nat;
  expected_final_hash : option string;
  computed_final_hash : option string;
  chain_intact : option bool;
  verification_time : option string
}.

(** The [for measurement in measurements] loop: the next record is hashed
    against the hash just computed, not against the stored one. *)
Fixpoint verify_loop (measurements : list pydict) (previous_hash : string)
    (verification_results : list VerificationResult)
  : option (string * list VerificationResult) :=
  match measurements with
  | [] => Some (previous_hash, verification_results)
  | measurement :: rest =>
      computed ← hash_measurement
                   (get measurement "sensor_id" (PStr "unknown"))
                   (get measurement "timestamp" (PStr ""))
                   (get measurement "depth_inches" (PInt 0))
                   (get measurement "volumetric_water_content" (PFloat 0))
                   previous_hash (Some measurement);
      let stored := get measurement "measurement_hash" (PStr "") in
      prefix_ok ← (if truthy stored then
                     match stored with
                     | PStr s => Some (Text.startswith computed (Text.take_prefix 16 s))
                     | _ => None
                     end
                   else Some false);
      verify_loop rest computed
        (verification_results ++
           [{| vr_timestamp := measurement !! "timestamp"%string;
               vr_sensor_id := measurement !! "sensor_id"%string;
               computed_hash := computed;
               stored_hash := stored;
               hash_valid := str_eq computed stored;
               chain_valid := prefix_ok |}])
  end.

Definition verify_chain_integrity (now : string) (measurements : list pydict)
    (expected_first_hash expected_last_hash : string) : option ChainReport :=
  match measurements with
  | [] =>
      Some {| valid := false;
              error := Some "No measurements provided"%string;
              chain_length := 0;
              valid_hashes := None;
              expected_final_hash := None;
              computed_final_hash := None;
              chain_intact := None;
              verification_time := None |}
  | _ =>
      '(final_hash, verification_results) ←
         verify_loop measurements expected_first_hash [];
      let total_measurements := List.length verification_results in
      let chain_ok := String.eqb final_hash expected_last_hash in
      let n_valid := List.length (List.filter hash_valid verification_results) in
      Some {| valid := chain_ok && Nat.eqb n_valid total_measurements;
              error := None;
              chain_length := total_measurements;
              valid_hashes := Some n_valid;
              expected_final_hash := Some expected_last_hash;
              computed_final_hash := Some final_hash;
              chain_intact := Some chain_ok;
              verification_time := Some now |}
  end.

(** The ingest convenience function; [now] is the clock's reading. *)
Definition create_measurement_with_integrity (now : string) (sensor_id : string)
    (depth_inches : Z) (vwc : Q) (previous_hash : string)
    (soil_temp_c water_potential : option Q) (signer_key : option string)
  : option pydict :=
  let hasher := {| signing_key := signer_key |} in
  let timestamp := now in
  measurement_hash ←
    hash_measurement (PStr sensor_id) (PStr timestamp) (PInt depth_inches)
      (PFloat vwc) previous_hash
      (Some (<["water_potential"%string := of_float water_potential]>
               (<["soil_temp_c"%string := of_float soil_temp_c]> ∅)));
  let signature := sign_hash hasher measurement_hash sensor_id in
  Some (<["signal_quality"%string := PFloat 1]>
          (<["signature"%string := PStr signature]>
             (<["previous_hash"%string := PStr previous_hash]>
                (<["measurement_hash"%string := PStr measurement_hash]>
                   (<["soil_water_potential"%string := of_float water_potential]>
                      (<["soil_temperature_c"%string := of_float soil_temp_c]>
                         (<["volumetric_water_content"%string := PFloat vwc]>
                            (<["depth_inches"%string := PInt depth_inches]>
                               (<["timestamp"%string := PStr timestamp]>
                                  (<["sensor_id"%string := PStr sensor_id]> ∅)))))))))).

(** The ingest path of the measurement cycle: every probe reading is created
    against the own-hash of the one before it. *)
Record Reading := {
  rd_now : string;
  rd_sensor_id : string;
  rd_depth_inches : Z;
  rd_vwc : Q;
  rd_soil_temp_c : option Q;
  rd_water_potential : option Q
}.

Definition own_hash (measurement : pydict) : string :=
  match measurement !! "measurement_hash"%string with
  | Some (PStr h) => h
  | _ => ""%string
  end.

Fixpoint ingest (signer_key : option string) (readings : list Reading)
    (previous_hash : string) : option (list pydict) :=
  match readings with
  | [] => Some []
  | r :: rest =>
      measurement ← create_measurement_with_integrity (rd_now r) (rd_sensor_id r)
                      (rd_depth_inches r) (rd_vwc r) previous_hash
                      (rd_soil_temp_c r) (rd_water_potential r) signer_key;
      later ← ingest signer_key rest (own_hash measurement);
      Some (measurement :: later)
  end.

End Integrity.

(** * SQLite, as the stores use it through Python's [sqlite3]

    A REAL is the rational it denotes: a number read from text is read
    exactly, and sums are exact. *)

Module Sqlite.

(** A stored value and its storage class. (The only blob the stores write
    is [raw_data], which the rows keep apart.) *)
Inductive value : Type :=
| Null
| Integer (z : Z)
| Real (q : Q)
| Text (s : string).

(** What a statement can raise. *)
Inductive error : Type :=
| KeyError (key : string)
| OverflowError
| IntegrityError
| OperationalError.

Inductive result (A : Type) : Type :=
| Ok (a : A)
| Raise (e : error).

Arguments Ok {A} a.
Arguments Raise {A} e.

Definition and_then {A B : Type} (r : result A) (k : A -> result B) : result B :=
  match r with
  | Ok a => k a
  | Raise e => Raise e
  end.

Declare Scope result_scope.
Delimit Scope result_scope with result.
Notation "x <- r ;; k" := (and_then r (fun x => k))
  (at level 100, r at next level, right associativity) : result_scope.

Definition min_int64 : Z := - 2 ^ 63.
Definition max_int64 : Z := 2 ^ 63 - 1.

(** A Python value bound to a [?]: [None] is NULL, an [int] (a [bool] is
    one) an INTEGER when it fits 64 bits and [OverflowError] when it does
    not, a [float] a REAL, a [str] a TEXT. *)
Definition bind_parameter (v : pyval) : result value :=
  match v with
  | PNone => Ok Null
  | PBool b => Ok (Integer (if b then 1 else 0))
  | PInt z =>
      if (min_int64 <=? z) && (z <=? max_int64) then Ok (Integer z)
      else Raise OverflowError
  | PFloat q => Ok (Real q)
  | PStr s => Ok (Text s)
  end.

Definition Qlt_bool (a b : Q) : bool := negb (Qle_bool b a).

(** The decimal exponent of [a > 0]: [10 ^ e <= a < 10 ^ (e + 1)]. *)
Fixpoint settle (fuel : nat) (a : Q) (e : Z) : Z :=
  match fuel with
  | O => e
  | S fuel' =>
      if Qlt_bool a (Num.pow10 e) then settle fuel' a (e - 1)
      else if Qle_bool (Num.pow10 (e + 1)) a then settle fuel' a (e + 1)
      else e
  end.

Definition exponent10 (a : Q) : Z :=
  settle 8 a ((Z.log2 (Qnum a) - Z.log2 (Zpos (Qden a))) * 30103 / 100000).

(** The digits after the point: trailing zeros go, one digit stays. *)
Definition fraction (ds : string) : string :=
  match Text.strip_trailing_zeros ds with
  | EmptyString => "0"%string
  | s => s
  end.

(** The text of a REAL, as [printf("%!.15g")] of SQLite writes it: fifteen
    significant digits, rounded half up; exponent form when the exponent is
    below -4 or above 14; always a digit each side of the point. *)
Definition real_text (q : Q) : string :=
  match Qnum q with
  | Z0 => "0.0"%string
  | _ =>
      let a := Qabs q in
      let e := exponent10 a in
      let m := Qfloor (a * Num.pow10 (14 - e) + (1 # 2)) in
      let '(m, e) := if 10 ^ 15 <=? m then (m / 10, e + 1) else (m, e) in
      let ds := Text.string_of_nonneg m in
      let body :=
        if (e <? -4) || (14 <? e) then
          let etxt := Text.string_of_nonneg (Z.abs e) in
          let etxt := if Z.abs e <? 10 then String "0" etxt else etxt in
          let sign : string := if e <? 0 then "-"%string else "+"%string in
          (String.substring 0 1 ds ++ "." ++ fraction (String.substring 1 14 ds)
           ++ "e" ++ sign ++ etxt)%string
        else if e <? 0 then
          ("0." ++ Text.zeros (Z.to_nat (- e - 1)) ++ fraction ds)%string
        else
          (String.substring 0 (Z.to_nat (e + 1)) ds ++ "."
           ++ fraction (String.substring (Z.to_nat (e + 1)) (Z.to_nat (14 - e)) ds))%string in
      if Qnum q <? 0 then String "-" body else body
  end.

(** ** Text that reads as a number *)

Definition is_space (c : ascii) : bool :=
  let n := N_of_ascii c in ((9 <=? n) && (n <=? 13) || (n =? 32))%N.

Definition is_digit (c : ascii) : bool :=
  let n := N_of_ascii c in ((48 <=? n) && (n <=? 57))%N.

Definition digit_value (c : ascii) : Z := Z.of_N (N_of_ascii c) - 48.

Fixpoint skip_spaces (cs : list ascii) : list ascii :=
  match cs with
  | c :: rest => if is_space c then skip_spaces rest else cs
  | [] => []
  end.

(** The leading digits: their number, their value, and what follows. *)
Fixpoint digits (cs : list ascii) (count : nat) (acc : Z) : nat * Z * list ascii :=
  match cs with
  | c :: rest =>
      if is_digit c then digits rest (S count) (10 * acc + digit_value c)
      else (count, acc, cs)
  | [] => (count, acc, [])
  end.

Definition sign_of (cs : list ascii) : bool * list ascii :=
  match cs with
  | "-"%char :: rest => (true, rest)
  | "+"%char :: rest => (false, rest)
  | _ => (false, cs)
  end.

(** A number written in text: spaces, a sign, digits with at most one
    point and at least one digit, an exponent with at least one digit,
    spaces, and nothing else. Returns whether it is written as an integer
    (no point, no exponent) and its value. *)
Definition parse_number (s : string) : option (bool * Q) :=
  let cs := skip_spaces (list_ascii_of_string s) in
  let '(negative, cs) := sign_of cs in
  let '(n_int, int_part, cs) := digits cs 0 0 in
  let '(has_point, n_frac, mantissa, cs) :=
    match cs with
    | "."%char :: rest =>
        let '(n, m, rest') := digits rest 0 int_part in (true, n, m, rest')
    | _ => (false, O, int_part, cs)
    end in
  let '(has_exponent, exponent_ok, exponent, cs) :=
    match cs with
    | c :: rest =>
        if Ascii.eqb c "e" || Ascii.eqb c "E" then
          let '(exp_negative, rest1) := sign_of rest in
          let '(n, e, rest2) := digits rest1 0 0 in
          (true, negb (Nat.eqb n 0), if exp_negative then - e else e, rest2)
        else (false, true, 0, cs)
    | [] => (false, true, 0, cs)
    end in
  match skip_spaces cs with
  | [] =>
      if negb (Nat.eqb (n_int + n_frac) 0) && exponent_ok then
        let magnitude :=
          Qred (inject_Z mantissa * Num.pow10 (exponent - Z.of_nat n_frac)) in
        Some (negb has_point && negb has_exponent,
              if negative then Qred (- magnitude) else magnitude)
      else None
  | _ => None
  end.

(** ** Column affinity *)

(** A REAL that is a whole number strictly inside the 64-bit range becomes
    an INTEGER. *)
Definition real_to_integer (q : Q) : value :=
  let z := Qfloor q in
  if Qeq_bool q (inject_Z z) && (min_int64 <? z) && (z <? max_int64)
  then Integer z else Real q.

(** TEXT: a number is stored as its text. *)
Definition text_affinity (v : value) : value :=
  match v with
  | Integer z => Text (Text.string_of_Z z)
  | Real q => Text (real_text q)
  | Null | Text _ => v
  end.

(** INTEGER: text that reads as a number is stored as that number, and a
    whole REAL as an INTEGER. *)
Definition integer_affinity (v : value) : value :=
  match v with
  | Text s =>
      match parse_number s with
      | Some (as_integer, q) =>
          let z := Qfloor q in
          if as_integer && (min_int64 <=? z) && (z <=? max_int64) then Integer z
          else real_to_integer q
      | None => v
      end
  | Real q => real_to_integer q
  | Null | Integer _ => v
  end.

(** REAL: as INTEGER, and an INTEGER is then stored as a REAL. *)
Definition real_affinity (v : value) : value :=
  match integer_affinity v with
  | Integer z => Real (inject_Z z)
  | other => other
  end.

Definition is_null (v : value) : bool :=
  match v with
  | Null => true
  | _ => false
  end.

(** Equality as a UNIQUE index on a TEXT column sees it. *)
Definition same_text (a b : value) : bool :=
  match a, b with
  | Text x, Text y => String.eqb x y
  | _, _ => false
  end.

(** ** Arithmetic *)

(** The number a text starts with, as arithmetic reads it: the longest
    prefix that is a number ([0] when there is none), an exponent without
    digits left out. *)
Definition number_prefix (s : string) : bool * Q :=
  let cs := skip_spaces (list_ascii_of_string s) in
  let '(negative, cs) := sign_of cs in
  let '(n_int, int_part, cs) := digits cs 0 0 in
  let '(has_point, n_frac, mantissa, cs) :=
    match cs with
    | "."%char :: rest =>
        let '(n, m, rest') := digits rest 0 int_part in (true, n, m, rest')
    | _ => (false, O, int_part, cs)
    end in
  let '(has_exponent, exponent) :=
    match cs with
    | c :: rest =>
        if Ascii.eqb c "e" || Ascii.eqb c "E" then
          let '(exp_negative, rest1) := sign_of rest in
          let '(n, e, _) := digits rest1 0 0 in
          if Nat.eqb n 0 then (false, 0)
          else (true, if exp_negative then - e else e)
        else (false, 0)
    | [] => (false, 0)
    end in
  if Nat.eqb (n_int + n_frac) 0 then (true, 0%Q)
  else
    let magnitude :=
      Qred (inject_Z mantissa * Num.pow10 (exponent - Z.of_nat n_frac)) in
    (negb has_point && negb has_exponent,
     if negative then Qred (- magnitude) else magnitude).

(** [v + 1]: on integers while the sum fits 64 bits, on reals otherwise;
    NULL stays NULL. *)
Definition plus_one (v : value) : value :=
  let add_integer (z : Z) : value :=
    if z <? max_int64 then Integer (z + 1) else Real (Qred (inject_Z z + 1)) in
  match v with
  | Null => Null
  | Integer z => add_integer z
  | Real q => Real (Qred (q + 1))
  | Text s =>
      let '(as_integer, q) := number_prefix s in
      let z := Qfloor q in
      if as_integer && (min_int64 <=? z) && (z <=? max_int64) then add_integer z
      else Real (Qred (q + 1))
  end.

End Sqlite.

(** * persistence/timeseries.py *)

Module Timeseries.
Import Sqlite.

(** A row of [measurements], each column as SQLite stores it. [raw_data] is
    the JSON text of the measurement dict, kept here as the dict it
    encodes. *)
Record Row := {
  row_id : Z;
  sensor_id : value;
  depth_inches : value;
  timestamp : value;
  vwc : value;
  soil_temp_c : value;
  water_potential : value;
  signal_quality : value;
  measurement_hash : value;
  previous_hash : value;
  signature : value;
  raw_data : option pydict;
  created_at : string
}.

(** The single row ([id = 1]) of [chain_state]: [_init_database] inserts it
    and [CHECK (id = 1)] admits no other. *)
Record ChainState := {
  last_hash : value;
  total_records : value;
  last_updated : string
}.

(** [last_rowid] is the sequence AUTOINCREMENT keeps for [measurements]. *)
Record Database := {
  measurements : list Row;
  last_rowid : Z;
  chain_state : ChainState
}.

Definition genesis_hash : string := Text.zeros 64.

(** The database [_init_database] leaves behind on first use. *)
Definition _init_database (now : string) : Database :=
  {| measurements := [];
     last_rowid := 0;
     chain_state := {| last_hash := Text genesis_hash;
                       total_records := Integer 0;
                       last_updated := now |} |}.

(** What a call finds outside the program: the reading of
    [CURRENT_TIMESTAMP] at each statement, and whether the statement, or
    the commit, fails for a reason of its own (a locked database, a full
    disk: [sqlite3.OperationalError]). *)
Record Environment := {
  insert_time : string;
  insert_fails : bool;
  update_time : string;
  update_fails : bool;
  commit_fails : bool
}.

(** A connection: what is durable and what the open transaction has
    written. Closing without a commit drops the latter. *)
Record Connection := {
  committed : Database;
  pending : Database
}.

Definition connect (db : Database) : Connection :=
  {| committed := db; pending := db |}.

Definition close (conn : Connection) : Database := committed conn.

(** [measurement_dict[key]] *)
Definition subscript (measurement_dict : pydict) (key : string) : result pyval :=
  match measurement_dict !! key with
  | Some v => Ok v
  | None => Raise (KeyError key)
  end.

(** The tuple of parameters of the INSERT, as Python builds it. *)
Record Parameters := {
  p_sensor_id : pyval;
  p_depth_inches : pyval;
  p_timestamp : pyval;
  p_vwc : pyval;
  p_soil_temp_c : pyval;
  p_water_potential : pyval;
  p_signal_quality : pyval;
  p_measurement_hash : pyval;
  p_previous_hash : pyval;
  p_signature : pyval;
  p_raw_data : option pydict
}.

Definition insert_parameters (measurement_dict : pydict) : result Parameters :=
  (sid <- subscript measurement_dict "sensor_id" ;;
   depth <- subscript measurement_dict "depth_inches" ;;
   ts <- subscript measurement_dict "timestamp" ;;
   w <- subscript measurement_dict "volumetric_water_content" ;;
   mh <- subscript measurement_dict "measurement_hash" ;;
   ph <- subscript measurement_dict "previous_hash" ;;
   Ok {| p_sensor_id := sid;
         p_depth_inches := depth;
         p_timestamp := ts;
         p_vwc := w;
         p_soil_temp_c := Integrity.get measurement_dict "soil_temperature_c" PNone;
         p_water_potential :=
           Integrity.get measurement_dict "soil_water_potential" PNone;
         p_signal_quality :=
           Integrity.get measurement_dict "signal_quality" (PFloat 1);
         p_measurement_hash := mh;
         p_previous_hash := ph;
         p_signature := Integrity.get measurement_dict "signature" PNone;
         p_raw_data := match measurement_dict !! "raw_data"%string with
                       | None => Some measurement_dict
                       | Some _ => None
                       end |})%result.

(** The parameters bound in order, each stored with the affinity of its
    column; the row id is given on insertion. *)
Definition bind_row (now : string) (p : Parameters) : result Row :=
  (sid <- bind_parameter (p_sensor_id p) ;;
   depth <- bind_parameter (p_depth_inches p) ;;
   ts <- bind_parameter (p_timestamp p) ;;
   w <- bind_parameter (p_vwc p) ;;
   temp <- bind_parameter (p_soil_temp_c p) ;;
   potential <- bind_parameter (p_water_potential p) ;;
   quality <- bind_parameter (p_signal_quality p) ;;
   mh <- bind_parameter (p_measurement_hash p) ;;
   ph <- bind_parameter (p_previous_hash p) ;;
   sig <- bind_parameter (p_signature p) ;;
   Ok {| row_id := 0;
         sensor_id := text_affinity sid;
         depth_inches := integer_affinity depth;
         timestamp := text_affinity ts;
         vwc := real_affinity w;
         soil_temp_c := real_affinity temp;
         water_potential := real_affinity potential;
         signal_quality := real_affinity quality;
         measurement_hash := text_affinity mh;
         previous_hash := text_affinity ph;
         signature := text_affinity sig;
         raw_data := p_raw_data p;
         created_at := now |})%result.

(** A step of the [with] block: it returns or raises, and leaves the
    connection as it is at that point. *)
Definition Step (A : Type) : Type := Connection -> result A * Connection.

Definition lift {A : Type} (r : result A) : Step A := fun conn => (r, conn).

Definition next {A B : Type} (s : Step A) (k : A -> Step B) : Step B :=
  fun conn =>
    match s conn with
    | (Ok a, conn') => k a conn'
    | (Raise e, conn') => (Raise e, conn')
    end.

Declare Scope step_scope.
Delimit Scope step_scope with step.
Notation "x <- s ;; k" := (next s (fun x => k))
  (at level 100, s at next level, right associativity) : step_scope.

Local Open Scope step_scope.

(** The NOT NULL columns. *)
Definition not_null (r : Row) : bool :=
  negb (is_null (sensor_id r) || is_null (depth_inches r) || is_null (timestamp r)
        || is_null (vwc r) || is_null (measurement_hash r)
        || is_null (previous_hash r)).

(** The UNIQUE index on [measurement_hash]. *)
Definition hash_stored (h : value) (db : Database) : bool :=
  existsb (fun r => same_text (measurement_hash r) h) (measurements db).

(** The largest row id the table holds or has held. *)
Definition largest_rowid (db : Database) : Z :=
  fold_right Z.max (last_rowid db) (List.map row_id (measurements db)).

(** The row written into the open transaction: [IntegrityError] from a NOT
    NULL column given NULL or from the UNIQUE index, [OperationalError] when
    the row ids are used up. *)
Definition insert_row (r : Row) : Step unit :=
  fun conn =>
    let db := pending conn in
    if negb (not_null r) then (Raise IntegrityError, conn)
    else if hash_stored (measurement_hash r) db then (Raise IntegrityError, conn)
    else if max_int64 <=? largest_rowid db then (Raise OperationalError, conn)
    else
      let rid := largest_rowid db + 1 in
      (Ok tt,
       {| committed := committed conn;
          pending := {| measurements :=
                          measurements db ++
                          [{| row_id := rid;
                              sensor_id := sensor_id r;
                              depth_inches := depth_inches r;
                              timestamp := timestamp r;
                              vwc := vwc r;
                              soil_temp_c := soil_temp_c r;
                              water_potential := water_potential r;
                              signal_quality := signal_quality r;
                              measurement_hash := measurement_hash r;
                              previous_hash := previous_hash r;
                              signature := signature r;
                              raw_data := raw_data r;
                              created_at := created_at r |}];
                        last_rowid := rid;
                        chain_state := chain_state db |} |}).

(** [conn.execute("INSERT INTO measurements ...", parameters)] *)
Definition execute_insert (env : Environment) (p : Parameters) : Step unit :=
  fun conn =>
    if insert_fails env then (Raise OperationalError, conn)
    else (r <- lift (bind_row (insert_time env) p) ;; insert_row r) conn.

(** [conn.execute("UPDATE chain_state SET last_hash = ?, total_records =
    total_records + 1, last_updated = CURRENT_TIMESTAMP WHERE id = 1",
    (h,))] *)
Definition execute_update_chain (env : Environment) (h : pyval) : Step unit :=
  fun conn =>
    if update_fails env then (Raise OperationalError, conn)
    else
      (b <- lift (bind_parameter h) ;;
       fun conn =>
         let db := pending conn in
         if is_null (text_affinity b) then (Raise IntegrityError, conn)
         else
           (Ok tt,
            {| committed := committed conn;
               pending :=
                 {| measurements := measurements db;
                    last_rowid := last_rowid db;
                    chain_state :=
                      {| last_hash := text_affinity b;
                         total_records :=
                           integer_affinity (plus_one (total_records (chain_state db)));
                         last_updated := update_time env |} |} |})) conn.

(** [conn.commit()] *)
Definition commit (env : Environment) : Step unit :=
  fun conn =>
    if commit_fails env then (Raise OperationalError, conn)
    else (Ok tt, {| committed := pending conn; pending := pending conn |}).

(** The body of the [with] block. *)
Definition store_transaction (env : Environment) (measurement_dict : pydict)
  : Step unit :=
  parameters <- lift (insert_parameters measurement_dict) ;;
  _ <- execute_insert env parameters ;;
  h <- lift (subscript measurement_dict "measurement_hash") ;;
  _ <- execute_update_chain env h ;;
  commit env.

(** Returns the boolean of the source and the database left on disk: the
    connection is closed where the block was left, by [return True] or by
    the exception that both [except] clauses answer with [False]. *)
Definition store_measurement (env : Environment) (measurement_dict : pydict)
    (db : Database) : bool * Database :=
  let '(outcome, conn) := store_transaction env measurement_dict (connect db) in
  (match outcome with
   | Ok _ => true
   | Raise _ => false
   end,
   close conn).

Definition get_last_hash (db : Database) : value := last_hash (chain_state db).

End Timeseries.

(** * engine/bayesian/filter.py *)

Module Filter.

Local Open Scope R_scope.

Record MoistureState := {
  latitude : R;
  longitude : R;
  depth_inches : Z;
  predicted_vwc : R;
  prediction_variance : R;
  confidence : R;
  timestamp : string
}.

Record SoilCoefficients := {
  zone_id : string;
  ksat : R;
  field_capacity : R;
  wilting_point : R;
  sand_ratio : R;
  silt_ratio : R;
  clay_ratio : R;
  coefficient_variance : R;
  update_count : Z
}.

(** [SoilCoefficients(zone_id=zone_id)]: the dataclass defaults. *)
Definition default_coefficients (zone : string) : SoilCoefficients :=
  {| zone_id := zone;
     ksat := 10;
     field_capacity := 0.25;
     wilting_point := 0.08;
     sand_ratio := 0.33;
     silt_ratio := 0.33;
     clay_ratio := 0.34;
     coefficient_variance := 0.1;
     update_count := 0 |}.

Definition _recalculate_hydraulics (self : SoilCoefficients) : SoilCoefficients :=
  {| zone_id := zone_id self;
     ksat := Rpower 10 (-0.6 + 1.3 * sand_ratio self - 0.6 * clay_ratio self) * 100;
     field_capacity := 0.2576 - 0.002 * sand_ratio self + 0.0036 * clay_ratio self;
     wilting_point := 0.026 + 0.005 * clay_ratio self;
     sand_ratio := sand_ratio self;
     silt_ratio := silt_ratio self;
     clay_ratio := clay_ratio self;
     coefficient_variance := coefficient_variance self;
     update_count := update_count self |}.

(** The texture after the shift, before it is renormalised. *)
Definition shifted_texture (residual learning_rate : R) (self : SoilCoefficients)
  : R * R :=
  if Rlt_dec 0 residual then
    let clay := Rmin 0.6 (clay_ratio self + learning_rate * 0.05) in
    let sand := Rmax 0.1 (sand_ratio self - learning_rate * 0.05) in
    (sand, clay)
  else
    let sand := Rmin 0.8 (sand_ratio self + learning_rate * 0.05) in
    let clay := Rmax 0.1 (clay_ratio self - learning_rate * 0.05) in
    (sand, clay).

(** [None] is the [ZeroDivisionError] of the renormalisation. *)
Definition update_from_residual (residual learning_rate : R)
    (self : SoilCoefficients) : option SoilCoefficients :=
  if Rlt_dec (Rabs residual) 0.02 then Some self
  else
    let '(sand, clay) := shifted_texture residual learning_rate self in
    let total := sand + silt_ratio self + clay in
    if Req_dec_T total 0 then None
    else
      let renormalised :=
        {| zone_id := zone_id self;
           ksat := ksat self;
           field_capacity := field_capacity self;
           wilting_point := wilting_point self;
           sand_ratio := sand / total;
           silt_ratio := silt_ratio self / total;
           clay_ratio := clay / total;
           coefficient_variance := coefficient_variance self;
           update_count := update_count self |} in
      let recalculated := _recalculate_hydraulics renormalised in
      Some {| zone_id := zone_id recalculated;
              ksat := ksat recalculated;
              field_capacity := field_capacity recalculated;
              wilting_point := wilting_point recalculated;
              sand_ratio := sand_ratio recalculated;
              silt_ratio := silt_ratio recalculated;
              clay_ratio := clay_ratio recalculated;
              coefficient_variance := coefficient_variance recalculated * 0.95;
              update_count := (update_count recalculated + 1)%Z |}.

Record RecursiveBayesianFilter := {
  update_threshold : R;
  learning_rate : R;
  coefficients : gmap string SoilCoefficients;
  last_predictions : gmap string MoistureState;
  total_predictions : Z;
  total_updates : Z
}.

(** [RecursiveBayesianFilter()] with the constructor's defaults. *)
Definition new_filter : RecursiveBayesianFilter :=
  {| update_threshold := 0.03;
     learning_rate := 0.05;
     coefficients := ∅;
     last_predictions := ∅;
     total_predictions := 0;
     total_updates := 0 |}.

Definition get_or_create_coefficients (zone : string)
    (self : RecursiveBayesianFilter) : RecursiveBayesianFilter * SoilCoefficients :=
  match coefficients self !! zone with
  | Some coeffs => (self, coeffs)
  | None =>
      let coeffs := default_coefficients zone in
      ({| update_threshold := update_threshold self;
          learning_rate := learning_rate self;
          coefficients := <[zone := coeffs]> (coefficients self);
          last_predictions := last_predictions self;
          total_predictions := total_predictions self;
          total_updates := total_updates self |}, coeffs)
  end.

(** [f"{zone_id}_{depth_inches}"] *)
Definition prediction_key (zone : string) (depth : Z) : string :=
  (zone ++ "_" ++ Text.string_of_Z depth)%string.

Definition et_fraction (depth : Z) : R :=
  if (depth <=? 18)%Z then 0.6 else if (depth <=? 36)%Z then 0.3 else 0.1.

(** [None] is the [ZeroDivisionError] of [1.0 / (1.0 + variance)]. *)
Definition predict (now : string) (zone : string) (lat lon : R) (depth : Z)
    (et_rate_mm_day hours_since_last : R) (self : RecursiveBayesianFilter)
  : option (RecursiveBayesianFilter * MoistureState) :=
  let '(self, coeffs) := get_or_create_coefficients zone self in
  let key := prediction_key zone depth in
  let baseline_vwc :=
    match last_predictions self !! key with
    | Some last => predicted_vwc last
    | None => field_capacity coeffs
    end in
  let et_loss := (et_rate_mm_day / 24 * hours_since_last) / 1000 * et_fraction depth in
  let drainage :=
    if Rlt_dec (field_capacity coeffs) baseline_vwc then
      let excess := baseline_vwc - field_capacity coeffs in
      Rmin excess (ksat coeffs / 100 * (hours_since_last / 24) * 0.1)
    else 0 in
  let vwc := baseline_vwc - et_loss - drainage in
  let vwc := Rmax (wilting_point coeffs) (Rmin 0.5 vwc) in
  let variance := coefficient_variance coeffs * (1 + hours_since_last / 24) in
  if Req_dec_T (1 + variance) 0 then None
  else
    let state :=
      {| latitude := lat;
         longitude := lon;
         depth_inches := depth;
         predicted_vwc := vwc;
         prediction_variance := variance;
         confidence := 1 / (1 + variance);
         timestamp := now |} in
    Some ({| update_threshold := update_threshold self;
             learning_rate := learning_rate self;
             coefficients := coefficients self;
             last_predictions := <[key := state]> (last_predictions self);
             total_predictions := (total_predictions self + 1)%Z;
             total_updates := total_updates self |}, state).

(** What [update] reports ([update_info]). *)
Record UpdateInfo := {
  residual : R;
  updated : bool;
  new_coefficients : option SoilCoefficients
}.

Definition update (zone sensor : string) (depth : Z) (observed_vwc predicted : R)
    (self : RecursiveBayesianFilter) : option (RecursiveBayesianFilter * UpdateInfo) :=
  let res := observed_vwc - predicted in
  stepped ←
    (if Rlt_dec (update_threshold self) (Rabs res) then
       let '(self, coeffs) := get_or_create_coefficients zone self in
       coeffs' ← update_from_residual res (learning_rate self) coeffs;
       Some ({| update_threshold := update_threshold self;
                learning_rate := learning_rate self;
                coefficients := <[zone := coeffs']> (coefficients self);
                last_predictions := last_predictions self;
                total_predictions := total_predictions self;
                total_updates := (total_updates self + 1)%Z |},
             {| residual := res; updated := true; new_coefficients := Some coeffs' |})
     else Some (self, {| residual := res; updated := false; new_coefficients := None |}));
  let '(self, info) := stepped in
  let key := prediction_key zone depth in
  let cache :=
    match last_predictions self !! key with
    | Some last =>
        <[key := {| latitude := latitude last;
                    longitude := longitude last;
                    depth_inches := depth_inches last;
                    predicted_vwc := observed_vwc;
                    prediction_variance := prediction_variance last * 0.5;
                    confidence := confidence last;
                    timestamp := timestamp last |}]> (last_predictions self)
    | None => last_predictions self
    end in
  Some ({| update_threshold := update_threshold self;
           learning_rate := learning_rate self;
           coefficients := coefficients self;
           last_predictions := cache;
           total_predictions := total_predictions self;
           total_updates := total_updates self |}, info).

End Filter.

(** * engine/kriging/regression_kriging.py *)

Module Kriging.

Local Open Scope Q_scope.

Record KrigingCell := {
  cell_id : string;
  field_id : string;
  latitude : Q;
  longitude : Q;
  depth_inches : Z;
  estimated_vwc : Q;
  estimation_variance : Q;
  confidence : Q;
  is_hard_anchor : bool;
  anchor_sensor_id : option string;
  satellite_trend_value : option Q;
  cell_hash : option string
}.

(** The dict [compute_hash] serialises; [now] is the clock's reading. *)
Definition hash_data (now : string) (self : KrigingCell) : pydict :=
  <["timestamp"%string := PStr now]>
    (<["variance"%string := PFloat (Num.py_round (estimation_variance self) 8)]>
       (<["vwc"%string := PFloat (Num.py_round (estimated_vwc self) 6)]>
          (<["depth"%string := PInt (depth_inches self)]>
             (<["lon"%string := PFloat (Num.py_round (longitude self) 8)]>
                (<["lat"%string := PFloat (Num.py_round (latitude self) 8)]>
                   (<["field_id"%string := PStr (field_id self)]>
                      (<["cell_id"%string := PStr (cell_id self)]> ∅))))))).

Definition compute_hash (now : string) (self : KrigingCell) : KrigingCell :=
  {| cell_id := cell_id self;
     field_id := field_id self;
     latitude := latitude self;
     longitude := longitude self;
     depth_inches := depth_inches self;
     estimated_vwc := estimated_vwc self;
     estimation_variance := estimation_variance self;
     confidence := confidence self;
     is_hard_anchor := is_hard_anchor self;
     anchor_sensor_id := anchor_sensor_id self;
     satellite_trend_value := satellite_trend_value self;
     cell_hash := Some (sha256_hex (Json.dumps (hash_data now self))) |}.

(** The array module [self.xp] (NumPy or CuPy): the three library calls the
    engine makes that are not field arithmetic. [xp_linalg_inv] returns
    [None] where [linalg.inv] raises. *)
Record ArrayModule := {
  xp_sqrt : Q -> Q;
  xp_linalg_inv : list (list Q) -> option (list (list Q));
  xp_linalg_pinv : list (list Q) -> list (list Q)
}.

Record RegressionKrigingEngine := {
  xp : ArrayModule;
  grid_resolution : Q;
  nugget : Q;
  sill : Q;
  range_meters : Q;
  trend_weight : Q
}.

(** [RegressionKrigingEngine(grid_resolution_meters)] *)
Definition new_engine (backend : ArrayModule) (grid_resolution_meters : Q)
  : RegressionKrigingEngine :=
  {| xp := backend;
     grid_resolution := grid_resolution_meters;
     nugget := 0.001;
     sill := 0.05;
     range_meters := 150;
     trend_weight := 0.3 |}.

(** A reading handed to the engine: a dict, each key possibly absent. *)
Record SensorMeasurement := {
  sm_latitude : option Q;
  sm_longitude : option Q;
  sm_vwc : option Q;
  sm_depth_inches : option Z;
  sm_sensor_id : option string
}.

Definition Qltb (a b : Q) : bool := negb (Qle_bool b a).

Definition sumQ (l : list Q) : Q := foldr Qplus 0 l.

Definition dot (a b : list Q) : Q := sumQ (zip_with Qmult a b).

Definition matvec (m : list (list Q)) (v : list Q) : list Q :=
  List.map (fun row => dot row v) m.

(** Spherical variogram of one distance. *)
Definition _variogram_model (self : RegressionKrigingEngine) (h : Q) : Q :=
  let C0 := nugget self in
  let C := sill self in
  let a := range_meters self in
  if Qle_bool h a then C0 + C * (1.5 * h / a - 0.5 * (h / a) ^ 3)
  else C0 + C.

Definition distance (self : RegressionKrigingEngine) (p1 p2 : Q * Q) : Q :=
  let lat_scale := 111000 in
  let lon_scale := 86000 in
  xp_sqrt (xp self)
    ((fst p1 * lat_scale - fst p2 * lat_scale) ^ 2 +
     (snd p1 * lon_scale - snd p2 * lon_scale) ^ 2).

Definition _distance_matrix (self : RegressionKrigingEngine)
    (coords1 coords2 : list (Q * Q)) : list (list Q) :=
  List.map (fun p1 => List.map (fun p2 => distance self p1 p2) coords2) coords1.

(** The variogram matrix bordered by the Lagrange row and column of ones,
    with a zero corner. *)
Definition _build_kriging_system (self : RegressionKrigingEngine)
    (sensor_coords : list (Q * Q)) : list (list Q) :=
  let n := List.length sensor_coords in
  let K := List.map (List.map (_variogram_model self))
             (_distance_matrix self sensor_coords sensor_coords) in
  List.map (fun row => row ++ [1]) K ++ [repeat 1 n ++ [0]].

(** [xp.argmin]: the first index of the least element. *)
Fixpoint argmin_from (i best : nat) (best_value : Q) (l : list Q) : nat :=
  match l with
  | [] => best
  | x :: rest =>
      if Qltb x best_value then argmin_from (S i) i x rest
      else argmin_from (S i) best best_value rest
  end.

Definition argmin (l : list Q) : nat :=
  match l with
  | [] => O
  | x :: rest => argmin_from 1 0 x rest
  end.

Definition _check_sensor_location (self : RegressionKrigingEngine) (lat lon : Q)
    (sensor_coords : list (Q * Q)) (sensor_ids : list string)
  : bool * option string :=
  let tolerance_meters := 5 in
  let dist := List.map (distance self (lat, lon)) sensor_coords in
  let min_dist_idx := argmin dist in
  let min_dist := nth min_dist_idx dist 0 in
  if Qltb min_dist tolerance_meters
  then (true, Some (nth min_dist_idx sensor_ids ""%string))
  else (false, None).

(** [l.index(x)]: the first position of [x]; [None] is [ValueError]. *)
Fixpoint list_index (x : string) (l : list string) : option nat :=
  match l with
  | [] => None
  | y :: rest => if String.eqb y x then Some O else S <$> list_index x rest
  end.

(** [xp.linspace(start, stop, num)]; [None] is the [ValueError] of a
    negative [num]. *)
Definition linspace (start stop : Q) (num : Z) : option (list Q) :=
  if (num <? 0)%Z then None
  else if (num =? 1)%Z then Some [start]
  else
    let step := (stop - start) / inject_Z (num - 1) in
    Some (List.map (fun i => start + inject_Z (Z.of_nat i) * step)
            (seq 0 (Z.to_nat num))).

(** [f"{n:05d}"] *)
Definition pad5 (n : nat) : string :=
  let s := Text.string_of_nonneg (Z.of_nat n) in
  (Text.zeros (5 - String.length s) ++ s)%string.

(** [f"{field_id}_{depth_inches}in_{cell_count:05d}"] *)
Definition make_cell_id (field : string) (depth : Z) (cell_count : nat) : string :=
  (field ++ "_" ++ Text.string_of_Z depth ++ "in_" ++ pad5 cell_count)%string.

(** The grid dimensions, capped at about ten thousand cells; [None] is the
    [ZeroDivisionError] of a zero resolution. *)
Definition grid_dimensions (self : RegressionKrigingEngine)
    (field_bounds : Q * Q * Q * Q) : option (Z * Z) :=
  let '(min_lat, min_lon, max_lat, max_lon) := field_bounds in
  let lat_meters := (max_lat - min_lat) * 111000 in
  let lon_meters := (max_lon - min_lon) * 86000 in
  if Qeq_bool (grid_resolution self) 0 then None
  else
    let n_lat := (Num.py_int (lat_meters / grid_resolution self) + 1)%Z in
    let n_lon := (Num.py_int (lon_meters / grid_resolution self) + 1)%Z in
    let max_cells := 10000%Z in
    if (max_cells <? n_lat * n_lon)%Z then
      let scale := xp_sqrt (xp self) (inject_Z max_cells / inject_Z (n_lat * n_lon)) in
      Some (Num.py_int (inject_Z n_lat * scale), Num.py_int (inject_Z n_lon * scale))
    else Some (n_lat, n_lon).

(** The readings at the requested depth, as the four parallel lists the
    source builds; a matching reading without coordinates or value raises. *)
Fixpoint sensor_arrays (sensor_measurements : list SensorMeasurement) (depth : Z)
  : option (list (Q * Q) * list Q * list string) :=
  match sensor_measurements with
  | [] => Some ([], [], [])
  | measurement :: rest =>
      if bool_decide (sm_depth_inches measurement = Some depth) then
        lat ← sm_latitude measurement;
        lon ← sm_longitude measurement;
        v ← sm_vwc measurement;
        '(coords, values, ids) ← sensor_arrays rest depth;
        Some ((lat, lon) :: coords, v :: values,
              default "unknown"%string (sm_sensor_id measurement) :: ids)
      else sensor_arrays rest depth
  end.

Definition grid_points (lat_grid lon_grid : list Q) : list (Q * Q) :=
  flat_map (fun lat => List.map (fun lon => (lat, lon)) lon_grid) lat_grid.

(** [max(a, b)]: the first argument unless the second is larger. (Where
    Python answers [max(0, variance)] with the int 0, the cell keeps the
    number 0.) *)
Definition py_max (a b : Q) : Q := if Qltb a b then b else a.

(** The body of the double loop of [generate_virtual_grid] for one grid
    point, before the cell is hashed. *)
Definition grid_cell (self : RegressionKrigingEngine) (field : string) (depth : Z)
    (satellite_trend : option (Q -> Q -> Q))
    (sensor_coords : list (Q * Q)) (sensor_values : list Q) (sensor_ids : list string)
    (detrended_values : list Q) (K_inv : list (list Q))
    (cell_count : nat) (point : Q * Q) : option KrigingCell :=
  let '(lat, lon) := point in
  let '(is_anchor, anchor_sensor) :=
    _check_sensor_location self lat lon sensor_coords sensor_ids in
  '(vwc, variance, conf, trend_value) ←
    (if is_anchor then
       sensor_idx ← list_index (default ""%string anchor_sensor) sensor_ids;
       Some (nth sensor_idx sensor_values 0, 0, 1,
             (fun g => g lat lon) <$> satellite_trend)
     else
       let dist_to_sensors := List.map (distance self (lat, lon)) sensor_coords in
       let k_variogram := List.map (_variogram_model self) dist_to_sensors in
       let k_lagrange := k_variogram ++ [1] in
       let weights := matvec K_inv k_lagrange in
       let kriging_weights := firstn (List.length sensor_values) weights in
       let detrended_estimate := dot kriging_weights detrended_values in
       let trend_value :=
         match satellite_trend with
         | Some g => g lat lon
         | None => 0
         end in
       let variance :=
         py_max 0 (sill self + nugget self - dot kriging_weights k_variogram) in
       Some (detrended_estimate + trend_weight self * trend_value,
             variance, 1 / (1 + variance * 10), Some trend_value));
  Some {| cell_id := make_cell_id field depth cell_count;
          field_id := field;
          latitude := lat;
          longitude := lon;
          depth_inches := depth;
          estimated_vwc := vwc;
          estimation_variance := variance;
          confidence := conf;
          is_hard_anchor := is_anchor;
          anchor_sensor_id := anchor_sensor;
          satellite_trend_value := trend_value;
          cell_hash := None |}.

(** Inverse-distance weighting for fewer than three readings. *)
Definition _fallback_interpolation (clock : nat -> string)
    (self : RegressionKrigingEngine) (field : string)
    (min_lat min_lon max_lat max_lon : Q) (n_lat n_lon : Z)
    (sensor_measurements : list SensorMeasurement) (depth : Z)
  : option (list KrigingCell) :=
  let relevant :=
    List.filter (fun m => bool_decide (sm_depth_inches m = Some depth))
      sensor_measurements in
  let relevant :=
    match relevant with
    | [] => [{| sm_latitude := Some ((min_lat + max_lat) / 2);
                sm_longitude := Some ((min_lon + max_lon) / 2);
                sm_vwc := Some 0.20;
                sm_depth_inches := None;
                sm_sensor_id := None |}]
    | _ => relevant
    end in
  sensor_lats ← mapM sm_latitude relevant;
  sensor_lons ← mapM sm_longitude relevant;
  sensor_values ← mapM sm_vwc relevant;
  lat_grid ← linspace min_lat max_lat n_lat;
  lon_grid ← linspace min_lon max_lon n_lon;
  Some (imap
          (fun cell_count '(lat, lon) =>
             let dist :=
               zip_with (fun slat slon =>
                           xp_sqrt (xp self)
                             (((lat - slat) * 111000) ^ 2 + ((lon - slon) * 86000) ^ 2))
                 sensor_lats sensor_lons in
             let weights := List.map (fun d => 1 / (d + 1)) dist in
             let total := sumQ weights in
             let weights := List.map (fun w => w / total) weights in
             compute_hash (clock cell_count)
               {| cell_id := make_cell_id field depth cell_count;
                  field_id := field;
                  latitude := lat;
                  longitude := lon;
                  depth_inches := depth;
                  estimated_vwc := dot weights sensor_values;
                  estimation_variance :=
                    sumQ dist / inject_Z (Z.of_nat (List.length dist)) / 1000;
                  confidence := 0.5;
                  is_hard_anchor := false;
                  anchor_sensor_id := None;
                  satellite_trend_value := None;
                  cell_hash := None |})
          (grid_points lat_grid lon_grid)).

(** [clock n] is what the wall clock reads when the cell numbered [n] is
    hashed. [None] is an exception of the source. *)
Definition generate_virtual_grid (clock : nat -> string)
    (self : RegressionKrigingEngine) (field : string)
    (field_bounds : Q * Q * Q * Q) (sensor_measurements : list SensorMeasurement)
    (satellite_trend : option (Q -> Q -> Q)) (depth : Z)
  : option (list KrigingCell) :=
  let '(min_lat, min_lon, max_lat, max_lon) := field_bounds in
  '(n_lat, n_lon) ← grid_dimensions self field_bounds;
  '(sensor_coords, sensor_values, sensor_ids) ←
    sensor_arrays sensor_measurements depth;
  if Nat.ltb (List.length sensor_values) 3 then
    _fallback_interpolation clock self field min_lat min_lon max_lat max_lon
      n_lat n_lon sensor_measurements depth
  else
    let trend_at_sensors :=
      List.map (fun p => match satellite_trend with
                         | Some g => g (fst p) (snd p)
                         | None => 0
                         end) sensor_coords in
    let detrended_values :=
      zip_with (fun v t => v - trend_weight self * t) sensor_values trend_at_sensors in
    let K_lagrange := _build_kriging_system self sensor_coords in
    let K_inv :=
      match xp_linalg_inv (xp self) K_lagrange with
      | Some inverse => inverse
      | None => xp_linalg_pinv (xp self) K_lagrange
      end in
    lat_grid ← linspace min_lat max_lat n_lat;
    lon_grid ← linspace min_lon max_lon n_lon;
    cells ← mapM (fun '(cell_count, point) =>
                    grid_cell self field depth satellite_trend sensor_coords
                      sensor_values sensor_ids detrended_values K_inv
                      cell_count point)
               (imap pair (grid_points lat_grid lon_grid));
    Some (imap (fun cell_count cell => compute_hash (clock cell_count) cell) cells).

End Kriging.

(** ** An array module over exact rationals

    Used to run the engine on concrete inputs: the inverse is exact
    (Gauss-Jordan elimination), the pseudo-inverse is Moore-Penrose
    (Greville's column recursion) and a square root is cut after twelve
    decimals. *)

Module ExactArrays.

Local Open Scope Q_scope.

Definition fixed_sqrt (q : Q) : Q :=
  Qred (Z.sqrt (Qfloor (q * inject_Z (10 ^ 24))) # (10 ^ 12)).

Definition row_scale (k : Q) (r : list Q) : list Q :=
  List.map (fun x => Qred (k * x)) r.

Definition row_sub (a b : list Q) : list Q :=
  zip_with (fun x y => Qred (x - y)) a b.

Definition row_add (a b : list Q) : list Q :=
  zip_with (fun x y => Qred (x + y)) a b.

Definition is_zero (q : Q) : bool := Qeq_bool q 0.

Fixpoint find_pivot (c i : nat) (rows : list (list Q)) : option nat :=
  match rows with
  | [] => None
  | r :: rest =>
      if Nat.leb c i && negb (is_zero (nth c r 0)) then Some i
      else find_pivot c (S i) rest
  end.

Definition swap_rows (i j : nat) (m : list (list Q)) : list (list Q) :=
  <[i := nth j m []]> (<[j := nth i m []]> m).

Definition eliminate (c : nat) (m : list (list Q)) : option (list (list Q)) :=
  p ← find_pivot c 0 m;
  let m := swap_rows c p m in
  let prow := row_scale (/ nth c (nth c m []) 0) (nth c m []) in
  Some (imap (fun i r => if Nat.eqb i c then prow
                         else row_sub r (row_scale (nth c r 0) prow)) m).

Fixpoint gauss_jordan (cols : list nat) (m : list (list Q)) : option (list (list Q)) :=
  match cols with
  | [] => Some m
  | c :: rest => m' ← eliminate c m; gauss_jordan rest m'
  end.

Definition identity_row (n i : nat) : list Q :=
  List.map (fun j => if Nat.eqb i j then 1 else 0) (seq 0 n).

Definition inv (a : list (list Q)) : option (list (list Q)) :=
  let n := List.length a in
  m ← gauss_jordan (seq 0 n) (imap (fun i r => r ++ identity_row n i) a);
  Some (List.map (skipn n) m).

Definition transpose (width : nat) (m : list (list Q)) : list (list Q) :=
  List.map (fun j => List.map (fun r => nth j r 0) m) (seq 0 width).

Definition zero_row (n : nat) : list Q := repeat 0 n.

Definition all_zero (v : list Q) : bool := forallb is_zero v.

(** One step of Greville's recursion: [cols] are the columns taken so far,
    [pinv_rows] the rows of their pseudo-inverse, [a] the next column. *)
Definition greville_step (acc : list (list Q) * list (list Q)) (a : list Q)
  : list (list Q) * list (list Q) :=
  let '(cols, pinv_rows) := acc in
  let m := List.length a in
  let d := List.map (fun row => Kriging.dot row a) pinv_rows in
  let c := row_sub a (foldr row_add (zero_row m) (zip_with row_scale d cols)) in
  let b :=
    if all_zero c then
      row_scale (/ (1 + Kriging.dot d d))
        (foldr row_add (zero_row m) (zip_with row_scale d pinv_rows))
    else row_scale (/ Kriging.dot c c) c in
  (cols ++ [a],
   zip_with (fun row di => row_sub row (row_scale di b)) pinv_rows d ++ [b]).

Definition pinv (a : list (list Q)) : list (list Q) :=
  let width := match a with [] => O | r :: _ => List.length r end in
  snd (foldl greville_step ([], []) (transpose width a)).

Definition arrays : Kriging.ArrayModule :=
  {| Kriging.xp_sqrt := fixed_sqrt;
     Kriging.xp_linalg_inv := inv;
     Kriging.xp_linalg_pinv := pinv |}.

End ExactArrays.

(** * vri/controller.py *)

Module Controller.

Local Open Scope Q_scope.

Inductive ValveState :=
| CLOSED | OPENING | OPEN | CLOSING | FAULT | MANUAL_OVERRIDE.

Inductive IrrigationZoneStatus :=
| NO_IRRIGATION_NEEDED
| IRRIGATION_RECOMMENDED
| IRRIGATION_ACTIVE
| SATURATION_DETECTED
| DEEP_PERCOLATION_RISK.

#[global] Instance ValveState_eq_dec : EqDecision ValveState.
Proof. solve_decision. Defined.

#[global] Instance IrrigationZoneStatus_eq_dec : EqDecision IrrigationZoneStatus.
Proof. solve_decision. Defined.

Record ZoneIrrigationDecision := {
  zone_id : string;
  field_id : string;
  current_avg_vwc : Q;
  target_vwc : Q;
  field_capacity : Q;
  wilting_point : Q;
  status : IrrigationZoneStatus;
  recommended_duration_minutes : Z;
  confidence : Q;
  grid_cell_count : nat;
  cells_below_target : nat;
  cells_above_fc : nat;
  cells_at_risk : nat;
  max_duration_minutes : Z;
  timestamp : string
}.

Definition Qltb (a b : Q) : bool := negb (Qle_bool b a).

Definition should_irrigate (self : ZoneIrrigationDecision) : bool :=
  bool_decide (status self = IRRIGATION_RECOMMENDED)
  && Qltb 0.7 (confidence self)
  && (0 <? recommended_duration_minutes self)%Z.

(** A line of the audit log; the hash that ends the line is a function of
    these four fields. *)
Record AuditEvent := {
  ev_timestamp : string;
  event_type : string;
  user_id : string;
  details : pydict
}.

(** [AuditLogger.log_event]: the log file, one event longer. *)
Definition log_event (now kind user : string) (event_details : pydict)
    (log : list AuditEvent) : list AuditEvent :=
  log ++ [{| ev_timestamp := now;
             event_type := kind;
             user_id := user;
             details := event_details |}].

Definition log_irrigation_override (now user field zone reason : string)
    (duration_minutes : Z) (override_type : string) (log : list AuditEvent)
  : list AuditEvent :=
  log_event now "irrigation_override" user
    (<["timestamp_utc"%string := PStr now]>
       (<["duration_minutes"%string := PInt duration_minutes]>
          (<["reason"%string := PStr reason]>
             (<["override_type"%string := PStr override_type]>
                (<["zone_id"%string := PStr zone]>
                   (<["field_id"%string := PStr field]> ∅))))))
    log.

(** An entry of [active_irrigation]. *)
Record IrrigationInfo := {
  started_at : string;
  duration_minutes : Z;
  info_target_vwc : Q;
  valve_id : string
}.

(** The controller's mutable attributes. [audit_logger] is the log of the
    logger the controller was built with, [None] when it was built without
    one; [active_irrigation] keeps the insertion order of the dict. *)
Record VRIController := {
  audit_logger : option (list AuditEvent);
  valve_states : gmap string ValveState;
  active_irrigation : list (string * IrrigationInfo);
  vwc_threshold_low : Q;
  vwc_threshold_high : Q;
  deep_percolation_threshold : Q
}.

(** [VRIController(audit_logger=...)] *)
Definition new_controller (logger : option (list AuditEvent)) : VRIController :=
  {| audit_logger := logger;
     valve_states := ∅;
     active_irrigation := [];
     vwc_threshold_low := 0.15;
     vwc_threshold_high := 0.35;
     deep_percolation_threshold := 0.42 |}.

Definition set_audit_logger (logger : option (list AuditEvent))
    (self : VRIController) : VRIController :=
  {| audit_logger := logger;
     valve_states := valve_states self;
     active_irrigation := active_irrigation self;
     vwc_threshold_low := vwc_threshold_low self;
     vwc_threshold_high := vwc_threshold_high self;
     deep_percolation_threshold := deep_percolation_threshold self |}.

Definition set_valve (valve : string) (st : ValveState) (self : VRIController)
  : VRIController :=
  {| audit_logger := audit_logger self;
     valve_states := <[valve := st]> (valve_states self);
     active_irrigation := active_irrigation self;
     vwc_threshold_low := vwc_threshold_low self;
     vwc_threshold_high := vwc_threshold_high self;
     deep_percolation_threshold := deep_percolation_threshold self |}.

Definition set_active (active : list (string * IrrigationInfo))
    (self : VRIController) : VRIController :=
  {| audit_logger := audit_logger self;
     valve_states := valve_states self;
     active_irrigation := active;
     vwc_threshold_low := vwc_threshold_low self;
     vwc_threshold_high := vwc_threshold_high self;
     deep_percolation_threshold := deep_percolation_threshold self |}.

(** [d[key] = value] on an insertion-ordered dict. *)
Fixpoint dict_set {V} (key : string) (value : V) (d : list (string * V))
  : list (string * V) :=
  match d with
  | [] => [(key, value)]
  | (k, v) :: rest =>
      if String.eqb k key then (k, value) :: rest
      else (k, v) :: dict_set key value rest
  end.

(** [del d[key]] *)
Definition dict_del {V} (key : string) (d : list (string * V)) : list (string * V) :=
  List.filter (fun kv => negb (String.eqb (fst kv) key)) d.

(** [key in d] *)
Definition dict_mem {V} (key : string) (d : list (string * V)) : bool :=
  existsb (fun kv => String.eqb (fst kv) key) d.

Definition sumQ (l : list Q) : Q := fold_left Qplus l 0.

Definition count (p : Q -> bool) (l : list Q) : nat := List.length (List.filter p l).

Definition py_max (a b : Q) : Q := if Qltb a b then b else a.

(** [max(values, default=0)] *)
Definition max_default (l : list Q) : Q :=
  match l with
  | [] => 0
  | x :: rest => fold_left py_max rest x
  end.

Definition Qnat (n : nat) : Q := inject_Z (Z.of_nat n).

Definition soil_get (soil_properties : gmap string Q) (key : string) (dflt : Q) : Q :=
  default dflt (soil_properties !! key).

(** [log_time] is the clock's reading when the alert is logged, [now] when
    the decision record is built. *)
Definition analyze_zone_for_irrigation (log_time now : string)
    (zone field : string) (grid_cells : list Kriging.KrigingCell)
    (soil_properties : gmap string Q) (self : VRIController)
  : VRIController * ZoneIrrigationDecision :=
  match grid_cells with
  | [] =>
      (self,
       {| zone_id := zone;
          field_id := field;
          current_avg_vwc := 0;
          target_vwc := soil_get soil_properties "field_capacity" 0.25;
          field_capacity := soil_get soil_properties "field_capacity" 0.25;
          wilting_point := soil_get soil_properties "wilting_point" 0.08;
          status := NO_IRRIGATION_NEEDED;
          recommended_duration_minutes := 0;
          confidence := 0;
          grid_cell_count := 0;
          cells_below_target := 0;
          cells_above_fc := 0;
          cells_at_risk := 0;
          max_duration_minutes := 120;
          timestamp := now |})
  | _ =>
      let vwc_values := List.map Kriging.estimated_vwc grid_cells in
      let n := List.length vwc_values in
      let avg_vwc := sumQ vwc_values / Qnat n in
      let fc := soil_get soil_properties "field_capacity" 0.25 in
      let wp := soil_get soil_properties "wilting_point" 0.08 in
      let target := fc * 0.9 in
      let below_target := count (fun v => Qltb v target) vwc_values in
      let above_fc := count (fun v => Qltb fc v) vwc_values in
      let deep_cells :=
        List.filter (fun cell => (42 <=? Kriging.depth_inches cell)%Z) grid_cells in
      let cells_at_deep_risk :=
        count (fun v => Qltb (deep_percolation_threshold self) v)
          (List.map Kriging.estimated_vwc deep_cells) in
      let '(self, st, duration) :=
        if Nat.ltb 0 cells_at_deep_risk then
          (match audit_logger self with
           | Some log =>
               set_audit_logger
                 (Some (log_event log_time "deep_percolation_alert" "system"
                          (<["max_vwc"%string :=
                               PFloat (max_default
                                         (List.map Kriging.estimated_vwc deep_cells))]>
                             (<["risk_cells"%string :=
                                  PInt (Z.of_nat cells_at_deep_risk)]>
                                (<["field_id"%string := PStr field]>
                                   (<["zone_id"%string := PStr zone]> ∅))))
                          log))
                 self
           | None => self
           end, DEEP_PERCOLATION_RISK, 0%Z)
        else if Qltb (Qnat (List.length grid_cells) * 0.5) (Qnat above_fc) then
          (self, SATURATION_DETECTED, 0%Z)
        else if Qltb avg_vwc target
                && Qltb (Qnat (List.length grid_cells) * 0.3) (Qnat below_target) then
          let deficit := target - avg_vwc in
          (self, IRRIGATION_RECOMMENDED, Z.min (Num.py_int (deficit * 100 * 15)) 120)
        else (self, NO_IRRIGATION_NEEDED, 0%Z) in
      let conf :=
        if Nat.ltb 1 n then
          let variance :=
            sumQ (List.map (fun v => (v - avg_vwc) ^ 2) vwc_values) / Qnat n in
          py_max 0.5 (1 - variance * 10)
        else 0.5 in
      (self,
       {| zone_id := zone;
          field_id := field;
          current_avg_vwc := avg_vwc;
          target_vwc := target;
          field_capacity := fc;
          wilting_point := wp;
          status := st;
          recommended_duration_minutes := duration;
          confidence := conf;
          grid_cell_count := List.length grid_cells;
          cells_below_target := below_target;
          cells_above_fc := above_fc;
          cells_at_risk := cells_at_deep_risk;
          max_duration_minutes := 120;
          timestamp := now |})
  end.

(** [acked] is what [_send_valve_command] returns: whether the transport
    acknowledged the command within its two seconds. It is only consulted
    when a command is sent. *)
Definition execute_irrigation_decision (now : string) (acked : bool)
    (decision : ZoneIrrigationDecision) (valve_mapping : gmap string string)
    (self : VRIController) : VRIController * bool :=
  match valve_mapping !! zone_id decision with
  | None => (self, false)
  | Some valve =>
      if String.eqb valve "" then (self, false)
      else
        let current_state := default CLOSED (valve_states self !! valve) in
        if should_irrigate decision then
          if bool_decide (current_state = CLOSED) then
            if acked then
              (set_active
                 (dict_set (zone_id decision)
                    {| started_at := now;
                       duration_minutes := recommended_duration_minutes decision;
                       info_target_vwc := target_vwc decision;
                       valve_id := valve |}
                    (active_irrigation self))
                 (set_valve valve OPEN self), true)
            else (self, false)
          else (self, true)
        else if bool_decide (current_state = OPEN)
                && dict_mem (zone_id decision) (active_irrigation self) then
          if acked then
            (set_active (dict_del (zone_id decision) (active_irrigation self))
               (set_valve valve CLOSED self), true)
          else (self, false)
        else (self, true)
  end.

(** [command] is the text the operator passed: anything but ['open'] closes. *)
Definition manual_override (now : string) (valve command user reason : string)
    (duration : option Z) (self : VRIController) : VRIController * bool :=
  let self :=
    match audit_logger self with
    | Some log =>
        set_audit_logger
          (Some (log_irrigation_override now user "unknown" "unknown" reason
                   (default 0%Z duration) "manual" log))
          self
    | None => self
    end in
  (set_valve valve (if String.eqb command "open" then MANUAL_OVERRIDE else CLOSED) self,
   true).

(** One turn of the loop of [emergency_stop_all]. *)
Definition stop_zone (now user : string) (self : VRIController)
    (item : string * IrrigationInfo) : VRIController :=
  let '(zone, info) := item in
  let valve := valve_id info in
  let self :=
    match audit_logger self with
    | Some log =>
        set_audit_logger
          (Some (log_event now "emergency_stop" user
                   (<["reason"%string := PStr "emergency_stop_all"]>
                      (<["valve_id"%string := PStr valve]>
                         (<["zone_id"%string := PStr zone]> ∅)))
                   log))
          self
    | None => self
    end in
  set_valve valve CLOSED self.

Definition emergency_stop_all (now user : string) (self : VRIController)
  : VRIController :=
  set_active [] (foldl (stop_zone now user) self (active_irrigation self)).

End Controller.

(** * Concrete inputs and reference formulas *)

(** ** The ingest path against the verifier *)

Module RoundTrip.
Import Integrity.

Definition reading (now sensor : string) (depth : Z) (w : Q) (temp : option Q)
  : Reading :=
  {| rd_now := now;
     rd_sensor_id := sensor;
     rd_depth_inches := depth;
     rd_vwc := w;
     rd_soil_temp_c := temp;
     rd_water_potential := None |}.

(** Two probe readings of one measurement cycle. *)
Definition cycle : list Reading :=
  [ reading "2026-01-01T00:00:00" "field_01_hb_00" 12 (22 # 100) (Some (166 # 10));
    reading "2026-01-01T00:00:00.000125" "field_01_hb_00" 18 (1 # 4) None ].

(** Ingest from the genesis hash, then verify with the genesis hash as the
    expected first hash and the last own-hash as the expected last one. *)
Definition ingest_and_verify (signer_key : option string) (readings : list Reading)
  : option ChainReport :=
  measurements ← ingest signer_key readings genesis_hash;
  verify_chain_integrity "2026-01-01T00:15:00" measurements genesis_hash
    (own_hash (List.last measurements ∅)).

(** What the ingest path hashes for the second reading of [cycle] when it
    follows [prev], and what the verifier hashes for the stored dict. *)
Definition ingest_canonical (prev : string) : string :=
  Json.dumps
    (canonical_data (PStr "field_01_hb_00") (PStr "2026-01-01T00:00:00.000125")
       (PInt 18) (PFloat (1 # 4)) prev
       (Some (<["water_potential"%string := PNone]>
                (<["soil_temp_c"%string := PNone]> ∅)))).

Definition verify_canonical (prev : string) : string :=
  Json.dumps
    (canonical_data (PStr "field_01_hb_00") (PStr "2026-01-01T00:00:00.000125")
       (PInt 18) (PFloat (1 # 4)) prev
       (Some (<["signal_quality"%string := PFloat 1]> ∅))).

End RoundTrip.


(** ** The measurement store, case by case *)

Module StoreSpec.
Import Sqlite Timeseries.

(** The column holds the Python value [v], bound and stored with the
    affinity of the column. *)
Definition stored_as (affinity : value -> value) (v : pyval) (column : value)
  : Prop :=
  exists b, bind_parameter v = Ok b /\ column = affinity b.

(** The same of [measurement_dict[key]]. *)
Definition key_stored_as (affinity : value -> value) (measurement_dict : pydict)
    (key : string) (column : value) : Prop :=
  exists v, measurement_dict !! key = Some v /\ stored_as affinity v column.

(** [row] is the measurement: every column holds what the INSERT names for
    it. *)
Definition persists (measurement_dict : pydict) (row : Row) : Prop :=
  key_stored_as text_affinity measurement_dict "sensor_id" (sensor_id row)
  /\ key_stored_as integer_affinity measurement_dict "depth_inches" (depth_inches row)
  /\ key_stored_as text_affinity measurement_dict "timestamp" (timestamp row)
  /\ key_stored_as real_affinity measurement_dict "volumetric_water_content" (vwc row)
  /\ stored_as real_affinity
       (Integrity.get measurement_dict "soil_temperature_c" PNone) (soil_temp_c row)
  /\ stored_as real_affinity
       (Integrity.get measurement_dict "soil_water_potential" PNone)
       (water_potential row)
  /\ stored_as real_affinity
       (Integrity.get measurement_dict "signal_quality" (PFloat 1))
       (signal_quality row)
  /\ key_stored_as text_affinity measurement_dict "measurement_hash"
       (measurement_hash row)
  /\ key_stored_as text_affinity measurement_dict "previous_hash" (previous_hash row)
  /\ stored_as text_affinity
       (Integrity.get measurement_dict "signature" PNone) (signature row)
  /\ raw_data row = match measurement_dict !! "raw_data"%string with
                    | None => Some measurement_dict
                    | Some _ => None
                    end.

(** Nothing outside the program fails. *)
Definition undisturbed (env : Environment) : bool :=
  negb (insert_fails env) && negb (update_fails env) && negb (commit_fails env).

(** The row the INSERT would write, when its parameters can be built and
    bound. *)
Definition prepared (now : string) (measurement_dict : pydict) : result Row :=
  (p <- insert_parameters measurement_dict ;; bind_row now p)%result.

(** The constraints of the table admit the row. *)
Definition admits (db : Database) (r : Row) : bool :=
  not_null r && negb (hash_stored (measurement_hash r) db)
  && (largest_rowid db <? max_int64).

Definition with_id (rid : Z) (r : Row) : Row :=
  {| row_id := rid;
     sensor_id := sensor_id r;
     depth_inches := depth_inches r;
     timestamp := timestamp r;
     vwc := vwc r;
     soil_temp_c := soil_temp_c r;
     water_potential := water_potential r;
     signal_quality := signal_quality r;
     measurement_hash := measurement_hash r;
     previous_hash := previous_hash r;
     signature := signature r;
     raw_data := raw_data r;
     created_at := created_at r |}.

(** The chain state after a store. *)
Definition advanced (env : Environment) (r : Row) (state : ChainState) : ChainState :=
  {| last_hash := measurement_hash r;
     total_records := integer_affinity (plus_one (total_records state));
     last_updated := update_time env |}.

(** The database a successful call leaves behind: the row appended and the
    chain state advanced. *)
Definition stored (env : Environment) (r : Row) (db : Database) : Database :=
  {| measurements := measurements db ++ [with_id (largest_rowid db + 1) r];
     last_rowid := largest_rowid db + 1;
     chain_state := advanced env r (chain_state db) |}.

End StoreSpec.

(** ** A stored measurement *)

Module StoreScenario.

Definition measurement : pydict :=
  default ∅
    (Integrity.create_measurement_with_integrity "2026-01-01T00:00:00"
       "field_01_hb_00" 18 (1 # 4) Integrity.genesis_hash None None None).

Definition empty_db : Timeseries.Database :=
  Timeseries._init_database "2026-01-01 00:00:00".

Definition calm (insert_time update_time : string) : Timeseries.Environment :=
  {| Timeseries.insert_time := insert_time;
     Timeseries.insert_fails := false;
     Timeseries.update_time := update_time;
     Timeseries.update_fails := false;
     Timeseries.commit_fails := false |}.

(** The disk fills up between the INSERT and the UPDATE. *)
Definition disk_full (insert_time update_time : string) : Timeseries.Environment :=
  {| Timeseries.insert_time := insert_time;
     Timeseries.insert_fails := false;
     Timeseries.update_time := update_time;
     Timeseries.update_fails := true;
     Timeseries.commit_fails := false |}.

End StoreScenario.

(** ** Grid cells and controllers *)

Module Zone.
Import Controller.

Local Open Scope Q_scope.

Definition cell (depth : Z) (w : Q) : Kriging.KrigingCell :=
  {| Kriging.cell_id := "field_01_18in_00000";
     Kriging.field_id := "field_01";
     Kriging.latitude := 37.5;
     Kriging.longitude := -105.8;
     Kriging.depth_inches := depth;
     Kriging.estimated_vwc := w;
     Kriging.estimation_variance := 0;
     Kriging.confidence := 1;
     Kriging.is_hard_anchor := false;
     Kriging.anchor_sensor_id := None;
     Kriging.satellite_trend_value := None;
     Kriging.cell_hash := None |}.

(** [{'field_capacity': 0.25, 'wilting_point': 0.08}], what the engine passes. *)
Definition soil : gmap string Q :=
  <["wilting_point"%string := 0.08]> (<["field_capacity"%string := 0.25]> ∅).

Definition analyze (cells : list Kriging.KrigingCell) (self : VRIController)
  : VRIController * ZoneIrrigationDecision :=
  analyze_zone_for_irrigation "2026-01-01T00:15:00" "2026-01-01T00:15:01"
    "field_01_zone1" "field_01" cells soil self.

(** Three surface cells of the happy path: mean 0.20 against a target of
    0.225. *)
Definition dry_cells : list Kriging.KrigingCell :=
  [cell 18 0.18; cell 18 0.20; cell 18 0.22].

(** The same with a wet cell at 42 inches. *)
Definition percolating_cells : list Kriging.KrigingCell :=
  dry_cells ++ [cell 42 0.50].

(** One cell a hair under the target. *)
Definition barely_dry_cells : list Kriging.KrigingCell := [cell 18 0.2249].

Definition dry_decision : ZoneIrrigationDecision :=
  snd (analyze dry_cells (new_controller None)).

(** A controller with a logger opens valve_1 for the zone, is then handed a
    mapping that sends the same zone to valve_2 and opens that one too, and
    an operator opens valve_3 by manual override. *)
Definition before_stop : VRIController :=
  let c0 := new_controller (Some []) in
  let c1 := fst (execute_irrigation_decision "2026-01-01T00:16:00" true dry_decision
                   (<["field_01_zone1"%string := "valve_1"%string]> ∅) c0) in
  let c2 := fst (execute_irrigation_decision "2026-01-01T00:31:00" true dry_decision
                   (<["field_01_zone1"%string := "valve_2"%string]> ∅) c1) in
  fst (manual_override "2026-01-01T00:32:00" "valve_3" "open" "operator" "flush"
         (Some 10%Z) c2).

Definition after_stop : VRIController :=
  emergency_stop_all "2026-01-01T00:33:00" "system" before_stop.

Definition kinds (self : VRIController) : list string :=
  List.map event_type (default [] (audit_logger self)).

(** The claim of a deep-percolation alert: the log has grown by an event of
    that kind. *)
Definition alert_emitted (before after : VRIController) : Prop :=
  exists log ev,
    audit_logger before = Some log
    /\ audit_logger after = Some (log ++ [ev])
    /\ event_type ev = "deep_percolation_alert"%string.

End Zone.

(** ** What an emergency stop touches *)

Module StopSpec.
Import Controller.

(** The valves named by the entries of [active_irrigation]. *)
Definition active_valves (active : list (string * IrrigationInfo)) : list string :=
  List.map (fun item => valve_id (snd item)) active.

(** The event logged for one active zone. *)
Definition stop_event (now user : string) (item : string * IrrigationInfo)
  : AuditEvent :=
  {| ev_timestamp := now;
     event_type := "emergency_stop";
     user_id := user;
     details := <["reason"%string := PStr "emergency_stop_all"]>
                  (<["valve_id"%string := PStr (valve_id (snd item))]>
                     (<["zone_id"%string := PStr (fst item)]> ∅)) |}.

End StopSpec.

(** ** The soil filter: update sequences and the formulas of the text *)

Module SoilSpec.
Import Filter.

Local Open Scope R_scope.

(** A sequence of calls [update_from_residual(residual, learning_rate)] on
    one zone's coefficients; [None] if one of them raises. *)
Fixpoint apply_updates (updates : list (R * R)) (c : SoilCoefficients)
  : option SoilCoefficients :=
  match updates with
  | [] => Some c
  | (residual, rate) :: rest =>
      c' ← update_from_residual residual rate c;
      apply_updates rest c'
  end.

(** The invariant of the claim: wilting point <= field capacity <= 0.5, the
    texture sums to 1 within 1e-9, and K_sat is positive. *)
Definition soil_invariant (c : SoilCoefficients) : Prop :=
  wilting_point c <= field_capacity c <= 0.5
  /\ Rabs (sand_ratio c + silt_ratio c + clay_ratio c - 1) <= 1 / 10 ^ 9
  /\ 0 < ksat c.

(** What the updates keep besides: positive fractions that sum to 1. *)
Definition texture_ok (c : SoilCoefficients) : Prop :=
  0 < sand_ratio c /\ 0 < silt_ratio c /\ 0 < clay_ratio c
  /\ sand_ratio c + silt_ratio c + clay_ratio c = 1.

(** The depth factor of the ET loss, in the words of the text. *)
Definition f_depth (depth : Z) : R :=
  if Z_le_dec depth 18 then 0.6 else if Z_le_dec depth 36 then 0.3 else 0.1.

Definition clamp (lo hi x : R) : R := Rmax lo (Rmin hi x).

(** Drainage: [min(excess, K_sat/100 * hours/24 * 0.1)] above field
    capacity, 0 otherwise. *)
Definition drainage (baseline fc k hours : R) : R :=
  if Rlt_dec fc baseline then Rmin (baseline - fc) (k / 100 * (hours / 24) * 0.1)
  else 0.

(** The predicted VWC with the ET loss as the claim words it,
    [(ET * hours / 24) * f_depth]. *)
Definition claimed_vwc (c : SoilCoefficients) (baseline et hours : R) (depth : Z) : R :=
  clamp (wilting_point c) 0.5
    (baseline - et * hours / 24 * f_depth depth
     - drainage baseline (field_capacity c) (ksat c) hours).

(** The predicted VWC with the ET loss converted from millimetres to metres
    of water per metre of soil, [(ET * hours / 24) / 1000 * f_depth]. *)
Definition expected_vwc (c : SoilCoefficients) (baseline et hours : R) (depth : Z) : R :=
  clamp (wilting_point c) 0.5
    (baseline - et * hours / 24 / 1000 * f_depth depth
     - drainage baseline (field_capacity c) (ksat c) hours).

(** The zone's coefficients as [predict] sees them, and its baseline: the
    last predicted (or observed) VWC for the zone and depth, else the field
    capacity. *)
Definition zone_coefficients (zone : string) (self : RecursiveBayesianFilter)
  : SoilCoefficients :=
  default (default_coefficients zone) (coefficients self !! zone).

Definition baseline (zone : string) (depth : Z) (self : RecursiveBayesianFilter) : R :=
  match last_predictions self !! prediction_key zone depth with
  | Some last => predicted_vwc last
  | None => field_capacity (zone_coefficients zone self)
  end.

End SoilSpec.

(** ** A small field for the kriging engine *)

Module Grid.
Import Kriging.

Local Open Scope Q_scope.

(** The cell with its hash left out. *)
Definition unhashed (c : KrigingCell) : KrigingCell :=
  {| cell_id := cell_id c;
     field_id := field_id c;
     latitude := latitude c;
     longitude := longitude c;
     depth_inches := depth_inches c;
     estimated_vwc := estimated_vwc c;
     estimation_variance := estimation_variance c;
     confidence := confidence c;
     is_hard_anchor := is_hard_anchor c;
     anchor_sensor_id := anchor_sensor_id c;
     satellite_trend_value := satellite_trend_value c;
     cell_hash := None |}.

Definition engine : RegressionKrigingEngine := new_engine ExactArrays.arrays 1.

Definition probe (lat lon w : Q) (sensor : option string) : SensorMeasurement :=
  {| sm_latitude := Some lat;
     sm_longitude := Some lon;
     sm_vwc := Some w;
     sm_depth_inches := Some 18%Z;
     sm_sensor_id := sensor |}.

(** A field of about 1.1 m by 1.7 m: a grid of two by two points. *)
Definition bounds : Q * Q * Q * Q := (37.5, -105.8, 37.50001, -105.79998).

(** Three readings at 18 inches given as the docstring asks, with latitude,
    longitude and VWC: one on the south-west corner, one on the north-east
    corner, one some 140 m away. *)
Definition probes : list SensorMeasurement :=
  [ probe 37.5 (-105.8) 0.18 None;
    probe 37.50001 (-105.79998) 0.22 None;
    probe 37.501 (-105.799) 0.30 None ].

(** The same readings with their sensor ids. *)
Definition named_probes : list SensorMeasurement :=
  [ probe 37.5 (-105.8) 0.18 (Some "field_01_hb_00"%string);
    probe 37.50001 (-105.79998) 0.22 (Some "field_01_hb_01"%string);
    probe 37.501 (-105.799) 0.30 (Some "field_01_hb_02"%string) ].

Definition run (clock : nat -> string) (readings : list SensorMeasurement)
  : option (list KrigingCell) :=
  generate_virtual_grid clock engine "field_01" bounds readings None 18.

Definition at_a_quarter_past (_ : nat) : string := "2026-01-01T00:15:00"%string.

(** The north-east corner, the last of the four grid points. *)
Definition north_east (cells : list KrigingCell) : option KrigingCell :=
  cells !! 3%nat.

End Grid.

(** * More of forensic/integrity.py *)

Module Signature.
Import Integrity.

(** [s.split(sep)] for a one-character separator. *)
Fixpoint split (sep : ascii) (s : string) : list string :=
  match s with
  | EmptyString => [EmptyString]
  | String c rest =>
      let parts := split sep rest in
      if Ascii.eqb c sep then EmptyString :: parts
      else match parts with
           | p :: ps => String c p :: ps
           | [] => [String c EmptyString]
           end
  end.

Definition colon : ascii := ascii_of_nat 58.

(** [c in s] for a character. *)
Definition has_char (c : ascii) (s : string) : bool :=
  existsb (Ascii.eqb c) (list_ascii_of_string s).

Definition is_ascii (s : string) : bool :=
  forallb (fun c => (N_of_ascii c <? 128)%N) (list_ascii_of_string s).

(** [hmac.compare_digest(a, b)] on two [str]: equality, and [TypeError]
    ([None]) unless both are ASCII. *)
Definition compare_digest (a b : string) : option bool :=
  if is_ascii a && is_ascii b then Some (String.eqb a b) else None.

(** [verify_signature(hash_value, signature, key_id)]; the [key_id] argument
    is not read, the key id is taken from the signature. *)
Definition verify_signature (hasher : ForensicHasher) (hash_value signature : string)
    (key_id : string) : option bool :=
  let no_key :=
    match signing_key hasher with
    | Some key => String.eqb key ""
    | None => true
    end in
  if no_key || Text.startswith signature "unsigned:" then Some false
  else
    let parts := split colon signature in
    if negb (Nat.eqb (List.length parts) 3)
       || negb (String.eqb (nth 0 parts ""%string) "hmac")
    then Some false
    else
      let expected := sign_hash hasher hash_value (nth 1 parts ""%string) in
      compare_digest signature expected.

(** [IntegrityProof.verify_chain]: this proof links to the previous one. *)
Record IntegrityProof := {
  measurement_hash : string;
  previous_hash : string;
  proof_timestamp : string;
  signature : option string;
  signer_id : option string
}.

Definition verify_chain (self previous_proof : IntegrityProof) : bool :=
  String.eqb (previous_hash self) (measurement_hash previous_proof).

End Signature.

(** The shape of a hex digest: 64 characters out of [0-9a-f]. *)
Module HexSpec.

Definition byte_range (b : Z) : Prop := 0 <= b < 256.

Definition is_hex_char (c : ascii) : bool :=
  let n := N_of_ascii c in
  ((48 <=? n) && (n <=? 57) || (97 <=? n) && (n <=? 102))%N.

Definition is_hex (s : string) : bool :=
  forallb is_hex_char (list_ascii_of_string s).

Definition hex64 (s : string) : Prop :=
  String.length s = 64%nat /\ is_hex s = true.

End HexSpec.

Module ChainSpec.
Import Integrity.

(** The hashes the verifier recomputes along a chain, each against the one
    before; [None] where [round] raises. *)
Fixpoint verifier_hashes (measurements : list pydict) (previous_hash : string)
  : option (list string) :=
  match measurements with
  | [] => Some []
  | measurement :: rest =>
      computed ← hash_measurement
                   (get measurement "sensor_id" (PStr "unknown"))
                   (get measurement "timestamp" (PStr ""))
                   (get measurement "depth_inches" (PInt 0))
                   (get measurement "volumetric_water_content" (PFloat 0))
                   previous_hash (Some measurement);
      later ← verifier_hashes rest computed;
      Some (computed :: later)
  end.

(** The stored own-hash of a record is [h]. *)
Definition stores (measurement : pydict) (h : string) : Prop :=
  get measurement "measurement_hash" (PStr "") = PStr h.

(** Each record names the own-hash of the one before it as its previous
    hash, the first one [previous]. *)
Fixpoint linked (previous : string) (measurements : list pydict) : Prop :=
  match measurements with
  | [] => True
  | measurement :: rest =>
      measurement !! "previous_hash"%string = Some (PStr previous)
      /\ (exists h, measurement !! "measurement_hash"%string = Some (PStr h))
      /\ linked (own_hash measurement) rest
  end.

End ChainSpec.

(** A chain completed the way a caller of [hash_batch] would: every record
    is given, as its own-hash, the hash of the record against the one
    before. *)
Module Sealed.
Import Integrity.

Definition probe (timestamp : string) (vwc : Q) : pydict :=
  <["volumetric_water_content"%string := PFloat vwc]>
    (<["depth_inches"%string := PInt 18]>
       (<["timestamp"%string := PStr timestamp]>
          (<["sensor_id"%string := PStr "VFA-001"]> ∅))).

(** [measurement] with the hash [hash_batch] computes for it. *)
Definition hash_of (measurement : pydict) (previous : string) : string :=
  List.hd ""%string (default [] (batch_hashes [measurement] previous)).

Definition seal (measurement : pydict) (previous : string) : pydict :=
  <["measurement_hash"%string := PStr (hash_of measurement previous)]> measurement.

Definition first : pydict := probe "2026-01-01T00:00:00" 0.25.
Definition second : pydict := probe "2026-01-01T00:15:00" 0.26.

Definition first_hash : string := hash_of first genesis_hash.
Definition second_hash : string := hash_of second first_hash.

Definition chain : list pydict :=
  [seal first genesis_hash; seal second first_hash].

Definition hashes : list string := [first_hash; second_hash].

End Sealed.
(** * Properties of the forensic hasher *)

Section IntegrityFacts.
Import Integrity.

(** The digest is the one [hashlib] computes (FIPS 180-4 test vector). *)
Example sha256_abc :
  sha256_hex "abc" =
  "ba7816bf8f01cfea414140de5dae2223b00361a396177a9cb410ff61f20015ad"%string.
Proof. vm_compute. reflexivity. Qed.

Example hmac_sha256_fox :
  hmac_sha256_hex "key" "The quick brown fox jumps over the lazy dog" =
  "f7bc83f430538424b13298e6aa6fb143ef4d59a14946175997479dbc2d1a3cd8"%string.
Proof. vm_compute. reflexivity. Qed.

Lemma genesis_hash_text :
  genesis_hash =
  "0000000000000000000000000000000000000000000000000000000000000000"%string.
Proof. reflexivity. Qed.

Lemma merkle_root_single (h : string) : _compute_merkle_root [h] = h.
Proof. reflexivity. Qed.

Lemma pair_level_length (level : list string) :
  (2 * List.length (pair_level level) <= S (List.length level))%nat.
Proof.
  induction level as [level IH] using (well_founded_induction
    (well_founded_ltof _ (@List.length string))).
  destruct level as [|a [|b rest]]; simpl; try lia.
  assert (Hlt : ltof _ (@List.length string) rest (a :: b :: rest))
    by (unfold ltof; simpl; lia).
  specialize (IH rest Hlt). lia.
Qed.

Lemma pair_level_nonempty (level : list string) :
  level <> [] -> pair_level level <> [].
Proof. destruct level as [|a [|b rest]]; simpl; congruence. Qed.

(** The loop of [_compute_merkle_root] ends on a single hash: the fuel it is
    given is enough. *)
Lemma merkle_loop_singleton (fuel : nat) (level : list string) :
  level <> [] -> (List.length level <= S fuel)%nat ->
  exists root, merkle_loop fuel level = [root].
Proof.
  revert level. induction fuel as [|fuel IH]; intros level Hne Hlen.
  - destruct level as [|a [|b rest]]; simpl in *; try congruence; try lia.
    exists a. reflexivity.
  - simpl. destruct (Nat.ltb_spec 1 (List.length level)) as [Hgt|Hle].
    + apply IH.
      * apply pair_level_nonempty, Hne.
      * pose proof (pair_level_length level). lia.
    + destruct level as [|a [|b rest]]; simpl in *; try congruence; try lia.
      exists a. reflexivity.
Qed.

End IntegrityFacts.

(** C10. An empty batch is answered with the previous batch hash twice, for
    every previous hash [p] and timestamp [t]: nothing is hashed, and the
    Merkle root reported is [p], whereas [_compute_merkle_root] gives the
    genesis hash (64 zeros) for an empty list. The two roots differ exactly
    when [p] is not the genesis hash. *)
Theorem hash_batch_empty (p t : string) :
  Integrity.hash_batch [] p t = Some (p, p)
  /\ Integrity._compute_merkle_root [] = Integrity.genesis_hash
  /\ Integrity.genesis_hash = Text.zeros 64
  /\ String.length Integrity.genesis_hash = 64%nat
  /\ (snd <$> Integrity.hash_batch [] p t <> Some (Integrity._compute_merkle_root [])
      <-> p <> Integrity.genesis_hash).
Proof.
  repeat split.
  - intros Hne Hp. apply Hne. rewrite Hp. reflexivity.
  - intros Hp Heq. simpl in Heq. injection Heq as Heq. apply Hp. exact Heq.
Qed.

Lemma hash_batch_empty_witness :
  Integrity.hash_batch [] "ab12" "2026-01-01T00:00:00" = Some ("ab12", "ab12")%string
  /\ snd <$> Integrity.hash_batch [] "ab12" "2026-01-01T00:00:00"
     <> Some (Integrity._compute_merkle_root []).
Proof.
  destruct (hash_batch_empty "ab12" "2026-01-01T00:00:00") as (H1 & _ & _ & _ & H5).
  split; [exact H1 | apply (proj2 H5); discriminate].
Defined.

(** C10, as first stated, fails where every chain starts: with the genesis
    hash as the previous batch hash, the root an empty batch reports is the
    root [_compute_merkle_root] gives for an empty list. *)
Lemma hash_batch_empty_at_genesis :
  Integrity.hash_batch [] Integrity.genesis_hash "2026-01-01T00:00:00"
  = Some (Integrity.genesis_hash, Integrity.genesis_hash)
  /\ snd <$> Integrity.hash_batch [] Integrity.genesis_hash "2026-01-01T00:00:00"
     = Some (Integrity._compute_merkle_root [])
  /\ ~ (forall p t : string,
          snd <$> Integrity.hash_batch [] p t
          <> Some (Integrity._compute_merkle_root [])).
Proof.
  split; [reflexivity|]. split; [reflexivity|].
  intros H. apply (H Integrity.genesis_hash "2026-01-01T00:00:00"). reflexivity.
Qed.

(** C1 (the code does not do this). Two readings ingested through
    [create_measurement_with_integrity], each chained to the own-hash of the
    one before, starting at the genesis hash, do not verify:
    [verify_chain_integrity] with the genesis hash and the last own-hash
    reports [valid = false], no valid hash out of two, and a computed final
    hash other than the stored one. The ingest path hashes the keys
    [soil_temp_c] and [water_potential]; the dict it returns carries
    [soil_temperature_c], [soil_water_potential] and [signal_quality], and
    of these the verifier hashes [signal_quality] only. *)
Theorem ingest_then_verify_rejects :
  (r ← RoundTrip.ingest_and_verify None RoundTrip.cycle;
   Some (Integrity.valid r, Integrity.chain_length r, Integrity.valid_hashes r,
         Integrity.chain_intact r,
         bool_decide (Integrity.computed_final_hash r = Integrity.expected_final_hash r)))
  = Some (false, 2%nat, Some 0%nat, Some false, false)
  /\ String.eqb (RoundTrip.ingest_canonical Integrity.genesis_hash)
       (RoundTrip.verify_canonical Integrity.genesis_hash) = false.
Proof. split; vm_compute; reflexivity. Qed.

(** For every measurement the ingest path creates, whatever the clock, the
    sensor, the reading and the signing key: its own-hash is the digest of
    a dict that holds [soil_temp_c] and [water_potential] and no
    [signal_quality], and the hash the verifier recomputes for it, from the
    same previous hash, is the digest of a dict that holds [signal_quality]
    and neither of the other two. *)
Theorem ingest_and_verifier_hash_different_data (now sensor : string) (depth : Z)
    (w : Q) (prev : string) (temp potential : option Q) (key : option string) :
  exists m created verified,
    Integrity.create_measurement_with_integrity now sensor depth w prev temp
      potential key = Some m
    /\ m !! "measurement_hash"%string = Some (PStr (sha256_hex (Json.dumps created)))
    /\ Integrity.hash_measurement
         (Integrity.get m "sensor_id" (PStr "unknown"))
         (Integrity.get m "timestamp" (PStr ""))
         (Integrity.get m "depth_inches" (PInt 0))
         (Integrity.get m "volumetric_water_content" (PFloat 0))
         prev (Some m)
       = Some (sha256_hex (Json.dumps verified))
    /\ created !! "soil_temp_c"%string = Some (Integrity.of_float temp)
    /\ created !! "water_potential"%string = Some (Integrity.of_float potential)
    /\ created !! "signal_quality"%string = None
    /\ verified !! "soil_temp_c"%string = None
    /\ verified !! "water_potential"%string = None
    /\ verified !! "signal_quality"%string = Some (PFloat 1).
Proof.
  eexists _, _, _.
  split; [reflexivity|].
  split; [reflexivity|].
  split; [reflexivity|].
  repeat split; reflexivity.
Qed.

(** * Properties of the measurement store *)

Section TimeseriesFacts.
Import Sqlite Timeseries StoreSpec.

Lemma prepared_persists (now : string) (d : pydict) (r : Row) :
  prepared now d = Ok r -> persists d r /\ created_at r = now.
Proof.
  unfold prepared, insert_parameters, subscript, persists, key_stored_as, stored_as.
  destruct (d !! "sensor_id"%string) as [sid|]; [|discriminate].
  destruct (d !! "depth_inches"%string) as [depth|]; [|discriminate].
  destruct (d !! "timestamp"%string) as [ts|]; [|discriminate].
  destruct (d !! "volumetric_water_content"%string) as [w|]; [|discriminate].
  destruct (d !! "measurement_hash"%string) as [mh|]; [|discriminate].
  destruct (d !! "previous_hash"%string) as [ph|]; [|discriminate].
  cbn [and_then]. unfold bind_row.
  cbn [p_sensor_id p_depth_inches p_timestamp p_vwc p_soil_temp_c p_water_potential
       p_signal_quality p_measurement_hash p_previous_hash p_signature p_raw_data].
  destruct (bind_parameter sid) as [b1|] eqn:?; [|discriminate].
  destruct (bind_parameter depth) as [b2|] eqn:?; [|discriminate].
  destruct (bind_parameter ts) as [b3|] eqn:?; [|discriminate].
  destruct (bind_parameter w) as [b4|] eqn:?; [|discriminate].
  destruct (bind_parameter (Integrity.get d "soil_temperature_c" PNone)) as [b5|];
    [|discriminate].
  destruct (bind_parameter (Integrity.get d "soil_water_potential" PNone)) as [b6|];
    [|discriminate].
  destruct (bind_parameter (Integrity.get d "signal_quality" (PFloat 1))) as [b7|];
    [|discriminate].
  destruct (bind_parameter mh) as [b8|] eqn:?; [|discriminate].
  destruct (bind_parameter ph) as [b9|] eqn:?; [|discriminate].
  destruct (bind_parameter (Integrity.get d "signature" PNone)) as [b10|];
    [|discriminate].
  cbn [and_then]. intros [= <-].
  cbn [sensor_id depth_inches timestamp vwc soil_temp_c water_potential
       signal_quality measurement_hash previous_hash signature raw_data created_at].
  repeat first [reflexivity | eassumption | split | eexists].
Qed.

(** Whether the row can be prepared does not depend on the clock, and
    neither does any column but [created_at]. *)
Lemma prepared_clock (now now' : string) (d : pydict) :
  match prepared now d, prepared now' d with
  | Ok r, Ok r' => with_id 0 r' = {| row_id := 0;
                                    sensor_id := sensor_id r;
                                    depth_inches := depth_inches r;
                                    timestamp := timestamp r;
                                    vwc := vwc r;
                                    soil_temp_c := soil_temp_c r;
                                    water_potential := water_potential r;
                                    signal_quality := signal_quality r;
                                    measurement_hash := measurement_hash r;
                                    previous_hash := previous_hash r;
                                    signature := signature r;
                                    raw_data := raw_data r;
                                    created_at := now' |}
  | Raise _, Raise _ => True
  | _, _ => False
  end.
Proof.
  unfold prepared. destruct (insert_parameters d) as [p|]; cbn [and_then]; [|exact I].
  unfold bind_row.
  destruct (bind_parameter (p_sensor_id p)); cbn [and_then]; [|exact I].
  destruct (bind_parameter (p_depth_inches p)); cbn [and_then]; [|exact I].
  destruct (bind_parameter (p_timestamp p)); cbn [and_then]; [|exact I].
  destruct (bind_parameter (p_vwc p)); cbn [and_then]; [|exact I].
  destruct (bind_parameter (p_soil_temp_c p)); cbn [and_then]; [|exact I].
  destruct (bind_parameter (p_water_potential p)); cbn [and_then]; [|exact I].
  destruct (bind_parameter (p_signal_quality p)); cbn [and_then]; [|exact I].
  destruct (bind_parameter (p_measurement_hash p)); cbn [and_then]; [|exact I].
  destruct (bind_parameter (p_previous_hash p)); cbn [and_then]; [|exact I].
  destruct (bind_parameter (p_signature p)); cbn [and_then]; [|exact I].
  reflexivity.
Qed.

(** The hash the UPDATE binds is the one the INSERT bound. *)
Lemma prepared_hash (now : string) (d : pydict) (r : Row) :
  prepared now d = Ok r ->
  exists h b, subscript d "measurement_hash" = Ok h
              /\ bind_parameter h = Ok b
              /\ measurement_hash r = text_affinity b.
Proof.
  intros H. destruct (prepared_persists _ _ _ H) as [Hp _].
  destruct Hp as (_ & _ & _ & _ & _ & _ & _ & (h & Hh & b & Hb & Hr) & _).
  exists h, b. unfold subscript. rewrite Hh. auto.
Qed.

(** [store_measurement], case by case. *)
Lemma store_measurement_unfold (env : Environment) (d : pydict) (db : Database) :
  store_measurement env d db =
  match prepared (insert_time env) d with
  | Ok r =>
      if undisturbed env && admits db r then (true, stored env r db)
      else (false, db)
  | Raise _ => (false, db)
  end.
Proof.
  unfold store_measurement, store_transaction, next, lift, execute_insert,
    execute_update_chain, commit, undisturbed.
  pose proof (prepared_hash (insert_time env) d) as Hhash.
  unfold prepared in *.
  destruct (insert_parameters d) as [p|]; cbn [and_then] in *; [|reflexivity].
  unfold next, lift.
  destruct (bind_row (insert_time env) p) as [r|];
    [|destruct (insert_fails env); reflexivity].
  destruct (Hhash r eq_refl) as (h & b & Hh & Hb & Hr).
  unfold insert_row, admits. cbn [pending connect committed].
  rewrite Hh, Hb, <- Hr, Z.leb_antisym.
  destruct (not_null r) eqn:Hnn.
  - assert (Hnull : is_null (measurement_hash r) = false).
    { unfold not_null in Hnn. apply negb_true_iff in Hnn.
      repeat (apply orb_false_iff in Hnn; destruct Hnn as [Hnn ?]). assumption. }
    destruct (hash_stored (measurement_hash r) db),
      (largest_rowid db <? max_int64), (insert_fails env), (update_fails env),
      (commit_fails env);
      cbn [negb andb pending committed close]; rewrite ?Hnull; reflexivity.
  - destruct (insert_fails env), (update_fails env), (commit_fails env);
      reflexivity.
Qed.

Lemma same_text_refl (v : value) :
  is_null (text_affinity v) = false ->
  same_text (text_affinity v) (text_affinity v) = true.
Proof.
  destruct v; cbn [text_affinity is_null same_text]; intros H;
    try discriminate; apply String.eqb_refl.
Qed.

Lemma hash_stored_after (env : Environment) (r : Row) (b : value) (db : Database) :
  measurement_hash r = text_affinity b ->
  is_null (measurement_hash r) = false ->
  hash_stored (measurement_hash r) (stored env r db) = true.
Proof.
  intros Hh Hnn. unfold hash_stored, stored. cbn [measurements].
  rewrite existsb_app. cbn [existsb with_id measurement_hash].
  rewrite Hh in *. rewrite same_text_refl by exact Hnn.
  rewrite orb_true_r. reflexivity.
Qed.

End TimeseriesFacts.

Section StoreFacts.
Import Sqlite Timeseries StoreSpec.

(** The constraints look at the columns only. *)
Lemma admits_clock (now now' : string) (d : pydict) (db : Database) (r r' : Row) :
  prepared now d = Ok r -> prepared now' d = Ok r' ->
  admits db r' = admits db r /\ measurement_hash r' = measurement_hash r.
Proof.
  intros Hr Hr'. pose proof (prepared_clock now now' d) as Hc.
  rewrite Hr, Hr' in Hc.
  assert (Hh : measurement_hash r' = measurement_hash r)
    by exact (f_equal measurement_hash Hc).
  split; [|exact Hh]. unfold admits, not_null. rewrite Hh.
  rewrite (f_equal sensor_id Hc : sensor_id r' = sensor_id r).
  rewrite (f_equal depth_inches Hc : depth_inches r' = depth_inches r).
  rewrite (f_equal timestamp Hc : timestamp r' = timestamp r).
  rewrite (f_equal vwc Hc : vwc r' = vwc r).
  rewrite (f_equal previous_hash Hc : previous_hash r' = previous_hash r).
  reflexivity.
Qed.

Lemma prepared_again (now now' : string) (d : pydict) (e : error) :
  prepared now d = Raise e -> exists e', prepared now' d = Raise e'.
Proof.
  intros H. pose proof (prepared_clock now now' d) as Hc. rewrite H in Hc.
  destruct (prepared now' d) as [|e']; [contradiction | eauto].
Qed.

Lemma admits_not_null (db : Database) (r : Row) :
  admits db r = true -> not_null r = true
                        /\ hash_stored (measurement_hash r) db = false
                        /\ is_null (measurement_hash r) = false.
Proof.
  unfold admits. intros H.
  apply andb_true_iff in H as [H _]. apply andb_true_iff in H as [Hnn Hst].
  split; [exact Hnn|]. split; [apply negb_true_iff, Hst|].
  unfold not_null in Hnn. apply negb_true_iff in Hnn.
  repeat (apply orb_false_iff in Hnn; destruct Hnn as [Hnn ?]). assumption.
Qed.

(** A measurement of the documented types is stored as it is. *)
Lemma persists_typed (d : pydict) (row : Row) (sid ts mh ph : string) (depth : Z)
    (w : Q) :
  persists d row ->
  d !! "sensor_id"%string = Some (PStr sid) ->
  d !! "depth_inches"%string = Some (PInt depth) ->
  d !! "timestamp"%string = Some (PStr ts) ->
  d !! "volumetric_water_content"%string = Some (PFloat w) ->
  d !! "measurement_hash"%string = Some (PStr mh) ->
  d !! "previous_hash"%string = Some (PStr ph) ->
  sensor_id row = Text sid
  /\ depth_inches row = Integer depth
  /\ timestamp row = Text ts
  /\ (exists q, vwc row = Real q /\ (q == w)%Q)
  /\ measurement_hash row = Text mh
  /\ previous_hash row = Text ph.
Proof.
  intros (H1 & H2 & H3 & H4 & _ & _ & _ & H8 & H9 & _) E1 E2 E3 E4 E8 E9.
  destruct H1 as (v1 & L1 & b1 & B1 & ->). rewrite E1 in L1. injection L1 as <-.
  destruct H2 as (v2 & L2 & b2 & B2 & ->). rewrite E2 in L2. injection L2 as <-.
  destruct H3 as (v3 & L3 & b3 & B3 & ->). rewrite E3 in L3. injection L3 as <-.
  destruct H4 as (v4 & L4 & b4 & B4 & ->). rewrite E4 in L4. injection L4 as <-.
  destruct H8 as (v8 & L8 & b8 & B8 & ->). rewrite E8 in L8. injection L8 as <-.
  destruct H9 as (v9 & L9 & b9 & B9 & ->). rewrite E9 in L9. injection L9 as <-.
  cbn [bind_parameter] in *.
  injection B1 as <-. injection B3 as <-. injection B4 as <-.
  injection B8 as <-. injection B9 as <-.
  destruct ((min_int64 <=? depth) && (depth <=? max_int64)); [|discriminate].
  injection B2 as <-.
  repeat split.
  unfold real_affinity, integer_affinity, real_to_integer.
  destruct (Qeq_bool w (inject_Z (Qfloor w))) eqn:Hw; cbn [andb].
  - apply Qeq_bool_iff in Hw.
    destruct ((min_int64 <? Qfloor w) && (Qfloor w <? max_int64)).
    + eexists. split; [reflexivity|]. symmetry. exact Hw.
    + eexists. split; [reflexivity|]. reflexivity.
  - eexists. split; [reflexivity|]. reflexivity.
Qed.

End StoreFacts.

(** C8. [store_measurement] is all or nothing, and a repeat is a no-op.
    Whatever the clock reads and whichever of INSERT, UPDATE and COMMIT
    fails for a reason of its own, for every measurement dict and database:
    either the call returns [False] and the database on disk is the one it
    found, or it returns [True], nothing failed, exactly one row was
    appended, that row holds in every column the value the INSERT names for
    it (bound, and stored with the affinity of the column; a dict with
    strings, an integer depth and a float reading is stored as it is), its
    id is the next one and its hash was not stored before, and the
    chain-state row holds that row's hash, the count plus one, and the time
    of the UPDATE.
    If the own-hash is already stored the call returns [False] and changes
    nothing. And after a call that returned [True], or that returned
    [False] while nothing outside the program failed, storing the same dict
    again returns [False] and leaves the database as the first call left
    it. *)
Theorem store_measurement_atomic (env env' : Timeseries.Environment) (d : pydict)
    (db : Timeseries.Database) :
  let ok := fst (Timeseries.store_measurement env d db) in
  let db' := snd (Timeseries.store_measurement env d db) in
  ((ok = false /\ db' = db)
   \/ (ok = true
       /\ StoreSpec.undisturbed env = true
       /\ exists row,
            StoreSpec.persists d row
            /\ Timeseries.row_id row = Timeseries.largest_rowid db + 1
            /\ Timeseries.created_at row = Timeseries.insert_time env
            /\ Timeseries.not_null row = true
            /\ Timeseries.hash_stored (Timeseries.measurement_hash row) db = false
            /\ Timeseries.measurements db' = Timeseries.measurements db ++ [row]
            /\ Timeseries.last_rowid db' = Timeseries.row_id row
            /\ Timeseries.chain_state db'
               = {| Timeseries.last_hash := Timeseries.measurement_hash row;
                    Timeseries.total_records :=
                      Sqlite.integer_affinity
                        (Sqlite.plus_one
                           (Timeseries.total_records (Timeseries.chain_state db)));
                    Timeseries.last_updated := Timeseries.update_time env |}
            /\ (forall n,
                  Timeseries.total_records (Timeseries.chain_state db)
                  = Sqlite.Integer n ->
                  n < Sqlite.max_int64 ->
                  Timeseries.total_records (Timeseries.chain_state db')
                  = Sqlite.Integer (n + 1))
            /\ (forall (sid ts mh ph : string) (depth : Z) (w : Q),
                  d !! "sensor_id"%string = Some (PStr sid) ->
                  d !! "depth_inches"%string = Some (PInt depth) ->
                  d !! "timestamp"%string = Some (PStr ts) ->
                  d !! "volumetric_water_content"%string = Some (PFloat w) ->
                  d !! "measurement_hash"%string = Some (PStr mh) ->
                  d !! "previous_hash"%string = Some (PStr ph) ->
                  Timeseries.sensor_id row = Sqlite.Text sid
                  /\ Timeseries.depth_inches row = Sqlite.Integer depth
                  /\ Timeseries.timestamp row = Sqlite.Text ts
                  /\ (exists q, Timeseries.vwc row = Sqlite.Real q /\ (q == w)%Q)
                  /\ Timeseries.measurement_hash row = Sqlite.Text mh
                  /\ Timeseries.previous_hash row = Sqlite.Text ph)))
  /\ (forall h b,
        d !! "measurement_hash"%string = Some h ->
        Sqlite.bind_parameter h = Sqlite.Ok b ->
        Timeseries.hash_stored (Sqlite.text_affinity b) db = true ->
        ok = false /\ db' = db)
  /\ (ok = true \/ StoreSpec.undisturbed env = true ->
      Timeseries.store_measurement env' d db' = (false, db')).
Proof.
  cbv zeta. rewrite (store_measurement_unfold env d db).
  destruct (StoreSpec.prepared (Timeseries.insert_time env) d) as [r|e] eqn:Hr.
  - destruct (prepared_persists _ _ _ Hr) as [Hp Hat].
    destruct (prepared_hash _ _ _ Hr) as (h & b & Hh & Hb & Hmh).
    destruct (StoreSpec.undisturbed env) eqn:Hcalm; cbn [andb fst snd].
    + destruct (StoreSpec.admits db r) eqn:Hadm; cbn [fst snd].
      * destruct (admits_not_null _ _ Hadm) as (Hnn & Hnew & Hnull).
        split; [|split].
        { right. split; [reflexivity|]. split; [reflexivity|].
          exists (StoreSpec.with_id (Timeseries.largest_rowid db + 1) r).
          split; [exact Hp|]. split; [reflexivity|]. split; [exact Hat|].
          split; [exact Hnn|]. split; [exact Hnew|]. split; [reflexivity|].
          split; [reflexivity|]. split; [reflexivity|]. split.
          - intros n Hn Hlt. cbn [StoreSpec.stored Timeseries.chain_state
              StoreSpec.advanced Timeseries.total_records].
            rewrite Hn. unfold Sqlite.plus_one.
            apply Z.ltb_lt in Hlt. rewrite Hlt. reflexivity.
          - intros sid ts mh ph depth w. apply persists_typed. exact Hp. }
        { intros h' b' Hh' Hb' Hdup. unfold Timeseries.subscript in Hh.
          rewrite Hh' in Hh. injection Hh as ->. rewrite Hb in Hb'.
          injection Hb' as <-. rewrite <- Hmh, Hnew in Hdup. discriminate. }
        { intros _. rewrite store_measurement_unfold.
          destruct (StoreSpec.prepared (Timeseries.insert_time env') d) as [r'|]
            eqn:Hr'; [|reflexivity].
          destruct (admits_clock _ _ d (StoreSpec.stored env r db) _ _ Hr Hr')
            as [Ha _].
          rewrite Ha. unfold StoreSpec.admits at 1.
          rewrite (hash_stored_after env r b db Hmh Hnull).
          rewrite andb_false_r, andb_false_l, andb_false_r. reflexivity. }
      * split; [left; split; reflexivity|]. split; [intros; split; reflexivity|].
        intros _. rewrite store_measurement_unfold.
        destruct (StoreSpec.prepared (Timeseries.insert_time env') d) as [r'|]
          eqn:Hr'; [|reflexivity].
        destruct (admits_clock _ _ d db _ _ Hr Hr') as [Ha _].
        rewrite Ha, Hadm, andb_false_r. reflexivity.
    + split; [left; split; reflexivity|]. split; [intros; split; reflexivity|].
      intros [H|H]; discriminate H.
  - cbn [fst snd]. split; [left; split; reflexivity|].
    split; [intros; split; reflexivity|].
    intros _. rewrite store_measurement_unfold.
    destruct (prepared_again _ (Timeseries.insert_time env') _ _ Hr) as [e' He'].
    rewrite He'. reflexivity.
Qed.

Lemma store_measurement_atomic_witness :
  let first := Timeseries.store_measurement
                 (StoreScenario.calm "2026-01-01 00:00:01" "2026-01-01 00:00:01")
                 StoreScenario.measurement StoreScenario.empty_db in
  fst first = true
  /\ Timeseries.total_records (Timeseries.chain_state (snd first)) = Sqlite.Integer 1
  /\ List.map (fun r => (Timeseries.row_id r, Timeseries.sensor_id r,
                         Timeseries.depth_inches r, Timeseries.vwc r))
       (Timeseries.measurements (snd first))
     = [(1, Sqlite.Text "field_01_hb_00", Sqlite.Integer 18, Sqlite.Real (1 # 4))]
  /\ Timeseries.store_measurement
       (StoreScenario.calm "2026-01-01 00:00:02" "2026-01-01 00:00:03")
       StoreScenario.measurement (snd first) = (false, snd first)
  /\ Timeseries.store_measurement
       (StoreScenario.disk_full "2026-01-01 00:00:01" "2026-01-01 00:00:01")
       StoreScenario.measurement StoreScenario.empty_db
     = (false, StoreScenario.empty_db).
Proof.
  cbv zeta.
  assert (Hok : fst (Timeseries.store_measurement
                       (StoreScenario.calm "2026-01-01 00:00:01" "2026-01-01 00:00:01")
                       StoreScenario.measurement StoreScenario.empty_db) = true)
    by (vm_compute; reflexivity).
  split; [exact Hok|]. split; [vm_compute; reflexivity|].
  split; [vm_compute; reflexivity|]. split.
  - apply (proj2 (proj2 (store_measurement_atomic
                           (StoreScenario.calm "2026-01-01 00:00:01"
                              "2026-01-01 00:00:01")
                           (StoreScenario.calm "2026-01-01 00:00:02"
                              "2026-01-01 00:00:03")
                           StoreScenario.measurement StoreScenario.empty_db))).
    left. exact Hok.
  - vm_compute. reflexivity.
Defined.

(** * Properties of the irrigation controller *)

Section ControllerFacts.
Import Controller.

Local Open Scope Q_scope.

Lemma Qltb_lt (a b : Q) : Qltb a b = true <-> a < b.
Proof.
  unfold Qltb. rewrite negb_true_iff. split.
  - intros H. apply Qnot_le_lt. intros Hle.
    apply Qle_bool_iff in Hle. congruence.
  - intros H. destruct (Qle_bool b a) eqn:E; [|reflexivity].
    apply Qle_bool_iff in E. exfalso. exact (Qlt_not_le _ _ H E).
Qed.

Lemma py_max_lower (a b : Q) : a <= py_max a b.
Proof.
  unfold py_max. destruct (Qltb a b) eqn:E.
  - apply Qlt_le_weak, Qltb_lt, E.
  - apply Qle_refl.
Qed.

Lemma py_int_nonneg (q : Q) : 0 <= q -> (0 <= Num.py_int q)%Z.
Proof.
  intros H. unfold Num.py_int. apply Z.quot_pos; [|lia].
  unfold Qle in H. simpl in H. lia.
Qed.

(** A cell that passes the test is counted. *)
Lemma count_positive (p : Q -> bool) (l : list Q) (x : Q) :
  In x l -> p x = true -> (0 < count p l)%nat.
Proof.
  intros Hin Hp. unfold count.
  assert (Hf : In x (List.filter p l)) by (apply filter_In; split; assumption).
  destruct (List.filter p l); [contradiction | simpl; lia].
Qed.

Lemma deep_risk_counted (self : VRIController) (cells : list Kriging.KrigingCell)
    (cell : Kriging.KrigingCell) :
  In cell cells ->
  (42 <= Kriging.depth_inches cell)%Z ->
  deep_percolation_threshold self < Kriging.estimated_vwc cell ->
  Nat.ltb 0
    (count (fun v => Qltb (deep_percolation_threshold self) v)
       (List.map Kriging.estimated_vwc
          (List.filter (fun c => (42 <=? Kriging.depth_inches c)%Z) cells))) = true.
Proof.
  intros Hin Hdepth Hwet. apply Nat.ltb_lt.
  apply count_positive with (x := Kriging.estimated_vwc cell).
  - apply in_map, filter_In. split; [exact Hin | apply Z.leb_le, Hdepth].
  - apply Qltb_lt, Hwet.
Qed.

End ControllerFacts.

(** C3 (as the code has it). The deep-percolation rule comes first: whenever
    some cell at depth 42 inches or more has an estimated VWC above 0.42, the
    controller's threshold, the decision is DEEP_PERCOLATION_RISK whatever
    the saturation and recommendation tests would say, and the recommended
    duration is 0. The alert is logged through the controller's audit
    logger: a controller built with one has exactly one event more, of kind
    [deep_percolation_alert] by [system]; a controller built without one
    logs nothing. *)
Theorem deep_percolation_first (log_time now zone field : string)
    (cells : list Kriging.KrigingCell) (soil : gmap string Q)
    (self : Controller.VRIController) (cell : Kriging.KrigingCell) :
  (Controller.deep_percolation_threshold self == 0.42)%Q ->
  In cell cells ->
  (42 <= Kriging.depth_inches cell)%Z ->
  (0.42 < Kriging.estimated_vwc cell)%Q ->
  let r := Controller.analyze_zone_for_irrigation log_time now zone field cells
             soil self in
  Controller.status (snd r) = Controller.DEEP_PERCOLATION_RISK
  /\ Controller.recommended_duration_minutes (snd r) = 0
  /\ match Controller.audit_logger self with
     | Some log =>
         exists ev,
           Controller.audit_logger (fst r) = Some (log ++ [ev])
           /\ Controller.event_type ev = "deep_percolation_alert"%string
           /\ Controller.user_id ev = "system"%string
     | None => Controller.audit_logger (fst r) = None
     end.
Proof.
  intros Hthr Hin Hdepth Hwet. cbv zeta.
  assert (Hrisk := deep_risk_counted self cells cell Hin Hdepth
                     ltac:(rewrite Hthr; exact Hwet)).
  unfold Controller.analyze_zone_for_irrigation.
  destruct cells as [|c cs]; [contradiction|].
  rewrite Hrisk. cbv beta iota. simpl fst. simpl snd.
  split; [reflexivity|]. split; [reflexivity|].
  destruct (Controller.audit_logger self) as [log|] eqn:Hlog.
  - eexists. split; [reflexivity|]. split; reflexivity.
  - exact Hlog.
Qed.

Lemma deep_percolation_first_witness :
  Controller.status
    (snd (Zone.analyze Zone.percolating_cells (Controller.new_controller (Some []))))
  = Controller.DEEP_PERCOLATION_RISK.
Proof.
  refine (proj1 (deep_percolation_first _ _ _ _ Zone.percolating_cells Zone.soil
                   (Controller.new_controller (Some [])) (Zone.cell 42 0.50)
                   _ _ _ _)).
  - reflexivity.
  - unfold Zone.percolating_cells, Zone.dry_cells. simpl. tauto.
  - simpl. lia.
  - reflexivity.
Defined.

(** C3 as stated fails: the engine's own inputs with a wet cell at 42 inches,
    on a controller built without an audit logger (the constructor's
    default), give DEEP_PERCOLATION_RISK and no audit event. *)
Lemma deep_percolation_alert_needs_logger :
  let r := Zone.analyze Zone.percolating_cells (Controller.new_controller None) in
  In (Zone.cell 42 0.50) Zone.percolating_cells
  /\ Controller.status (snd r) = Controller.DEEP_PERCOLATION_RISK
  /\ ~ Zone.alert_emitted (Controller.new_controller None) (fst r).
Proof.
  cbv zeta. split; [simpl; tauto|]. split; [vm_compute; reflexivity|].
  intros (log & ev & Hbefore & _). discriminate Hbefore.
Qed.

(** C4 (the code does not do this). [emergency_stop_all] closes the valves
    recorded in [active_irrigation] and no others. After valve_1 and valve_2
    were opened for the same zone and valve_3 by manual override, the stop
    closes valve_2, empties the active set and logs one [emergency_stop]
    event, but valve_1 is still OPEN and valve_3 still MANUAL_OVERRIDE. *)
Theorem emergency_stop_misses_valves :
  Controller.valve_states Zone.before_stop !! "valve_1"%string = Some Controller.OPEN
  /\ Controller.valve_states Zone.before_stop !! "valve_2"%string = Some Controller.OPEN
  /\ Controller.valve_states Zone.after_stop !! "valve_2"%string = Some Controller.CLOSED
  /\ Controller.valve_states Zone.after_stop !! "valve_1"%string = Some Controller.OPEN
  /\ Controller.valve_states Zone.after_stop !! "valve_3"%string
     = Some Controller.MANUAL_OVERRIDE
  /\ Controller.active_irrigation Zone.after_stop = []
  /\ Zone.kinds Zone.after_stop = ["irrigation_override"; "emergency_stop"]%string.
Proof. repeat split; vm_compute; reflexivity. Qed.

Section StopFacts.
Import Controller StopSpec.

Lemma stop_zone_spec (now user : string) (self : VRIController)
    (item : string * IrrigationInfo) :
  active_irrigation (stop_zone now user self item) = active_irrigation self
  /\ audit_logger (stop_zone now user self item)
     = (fun log => log ++ [stop_event now user item]) <$> audit_logger self
  /\ valve_states (stop_zone now user self item)
     = <[valve_id (snd item) := CLOSED]> (valve_states self).
Proof.
  destruct item as [zone info]. unfold stop_zone, stop_event, log_event.
  destruct (audit_logger self) as [log|] eqn:Hlog; simpl; rewrite ?Hlog; auto.
Qed.

Lemma stop_loop_spec (now user : string) (items : list (string * IrrigationInfo))
    (self : VRIController) :
  active_irrigation (foldl (stop_zone now user) self items) = active_irrigation self
  /\ audit_logger (foldl (stop_zone now user) self items)
     = (fun log => log ++ List.map (stop_event now user) items) <$> audit_logger self
  /\ (forall v, In v (active_valves items) ->
        valve_states (foldl (stop_zone now user) self items) !! v = Some CLOSED)
  /\ (forall v, ~ In v (active_valves items) ->
        valve_states (foldl (stop_zone now user) self items) !! v
        = valve_states self !! v).
Proof.
  revert self. induction items as [|item rest IH]; intros self.
  - simpl. repeat split; try contradiction; auto.
    destruct (audit_logger self); simpl; [rewrite app_nil_r|]; reflexivity.
  - destruct (stop_zone_spec now user self item) as (Ha & Hl & Hv).
    destruct (IH (stop_zone now user self item)) as (IHa & IHl & IHin & IHout).
    simpl foldl. split; [congruence|]. split; [|split].
    + rewrite IHl, Hl. destruct (audit_logger self); simpl; [|reflexivity].
      rewrite <- app_assoc. reflexivity.
    + intros v Hin.
      destruct (in_dec string_dec v (active_valves rest)) as [Hrest|Hrest].
      * apply IHin, Hrest.
      * rewrite (IHout v Hrest), Hv.
        destruct Hin as [<-|Hin]; [apply lookup_insert_eq | contradiction].
    + intros v Hout. simpl in Hout.
      rewrite IHout by tauto. rewrite Hv. apply lookup_insert_ne. tauto.
Qed.

End StopFacts.

(** What [emergency_stop_all] does, for every controller: the active set is
    emptied; every valve named by an entry of the active set is CLOSED; every
    other valve keeps the state it had; and a controller with an audit
    logger has one [emergency_stop] event more per entry, in the entries'
    order. *)
Theorem emergency_stop_all_effect (now user : string)
    (self : Controller.VRIController) :
  let self' := Controller.emergency_stop_all now user self in
  Controller.active_irrigation self' = []
  /\ (forall v, In v (StopSpec.active_valves (Controller.active_irrigation self)) ->
        Controller.valve_states self' !! v = Some Controller.CLOSED)
  /\ (forall v, ~ In v (StopSpec.active_valves (Controller.active_irrigation self)) ->
        Controller.valve_states self' !! v = Controller.valve_states self !! v)
  /\ Controller.audit_logger self'
     = (fun log => log ++ List.map (StopSpec.stop_event now user)
                            (Controller.active_irrigation self))
         <$> Controller.audit_logger self.
Proof.
  cbv zeta. unfold Controller.emergency_stop_all.
  destruct (stop_loop_spec now user (Controller.active_irrigation self) self)
    as (_ & Hl & Hin & Hout).
  simpl. auto.
Qed.

(** C5 (as the code has it). A RECOMMENDED decision has a duration between
    0 and 120 minutes and a confidence of at least 0.5; the strict bounds,
    duration above 0 and confidence above 0.7, are those of
    [should_irrigate], and hold of the decisions it accepts. *)
Theorem recommended_bounds (log_time now zone field : string)
    (cells : list Kriging.KrigingCell) (soil : gmap string Q)
    (self : Controller.VRIController) :
  let d := snd (Controller.analyze_zone_for_irrigation log_time now zone field
                  cells soil self) in
  Controller.status d = Controller.IRRIGATION_RECOMMENDED ->
  (0 <= Controller.recommended_duration_minutes d <= 120)%Z
  /\ (0.5 <= Controller.confidence d)%Q
  /\ (Controller.should_irrigate d = true ->
      (0 < Controller.recommended_duration_minutes d <= 120)%Z
      /\ (0.7 < Controller.confidence d)%Q).
Proof.
  cbv zeta. intros Hstatus.
  assert (Hfire :
    Controller.should_irrigate
      (snd (Controller.analyze_zone_for_irrigation log_time now zone field cells
              soil self)) = true ->
    (0 < Controller.recommended_duration_minutes
           (snd (Controller.analyze_zone_for_irrigation log_time now zone field
                   cells soil self)))%Z
    /\ (0.7 < Controller.confidence
                (snd (Controller.analyze_zone_for_irrigation log_time now zone
                        field cells soil self)))%Q).
  { unfold Controller.should_irrigate. intros H.
    apply andb_true_iff in H as [H Hdur]. apply andb_true_iff in H as [_ Hconf].
    split; [apply Z.ltb_lt, Hdur | apply Qltb_lt, Hconf]. }
  revert Hstatus Hfire.
  unfold Controller.analyze_zone_for_irrigation.
  destruct cells as [|c cs]; [cbn [snd Controller.status]; discriminate|].
  set (vals := List.map Kriging.estimated_vwc (c :: cs)).
  set (avg := (Controller.sumQ vals / Controller.Qnat (List.length vals))%Q).
  set (fc := Controller.soil_get soil "field_capacity" 0.25).
  set (target := (fc * 0.9)%Q).
  destruct (Nat.ltb 0 _);
    [cbv beta iota zeta; cbn [snd Controller.status]; discriminate|].
  destruct (Controller.Qltb _ (Controller.Qnat (Controller.count _ vals)));
    [cbv beta iota zeta; cbn [snd Controller.status]; discriminate|].
  destruct (Controller.Qltb avg target) eqn:Hdry;
    [|cbv beta iota zeta; cbn [andb snd Controller.status]; discriminate].
  destruct (Controller.Qltb _ (Controller.Qnat (Controller.count _ vals)));
    [|cbv beta iota zeta; cbn [andb snd Controller.status]; discriminate].
  cbv beta iota zeta.
  cbn [andb fst snd Controller.status Controller.recommended_duration_minutes
       Controller.confidence].
  intros _ Hfire.
  split.
  { split; [|apply Z.le_min_r].
    apply Z.min_glb; [|lia]. apply py_int_nonneg.
    apply Qltb_lt in Hdry.
    assert (0 <= target - avg)%Q
      by (apply (proj1 (Qle_minus_iff avg target)), Qlt_le_weak, Hdry).
    repeat apply Qmult_le_0_compat; try assumption; discriminate. }
  split.
  { destruct (Nat.ltb 1 (List.length vals)); [apply py_max_lower | apply Qle_refl]. }
  intros H. destruct (Hfire H) as [H1 H2]. split; [|exact H2].
  split; [exact H1 | apply Z.le_min_r].
Qed.

Lemma recommended_bounds_witness :
  (0 <= Controller.recommended_duration_minutes Zone.dry_decision <= 120)%Z
  /\ (0.5 <= Controller.confidence Zone.dry_decision)%Q.
Proof.
  destruct (recommended_bounds "2026-01-01T00:15:00" "2026-01-01T00:15:01"
              "field_01_zone1" "field_01" Zone.dry_cells Zone.soil
              (Controller.new_controller None)) as (H1 & H2 & _).
  - vm_compute. reflexivity.
  - split; [exact H1 | exact H2].
Defined.

(** C5 as stated fails: one cell a hair under the target gives a RECOMMENDED
    decision with duration 0 and confidence 0.5. *)
Lemma recommended_can_be_idle :
  let d := snd (Zone.analyze Zone.barely_dry_cells (Controller.new_controller None)) in
  Controller.status d = Controller.IRRIGATION_RECOMMENDED
  /\ Controller.recommended_duration_minutes d = 0%Z
  /\ (Controller.confidence d == 0.5)%Q
  /\ ~ ((0 < Controller.recommended_duration_minutes d)%Z
        /\ (0.7 < Controller.confidence d)%Q).
Proof.
  cbv zeta. split; [vm_compute; reflexivity|]. split; [vm_compute; reflexivity|].
  split; [vm_compute; reflexivity|].
  intros [H _]. vm_compute in H. discriminate H.
Qed.

(** * Properties of the soil filter *)

Section FilterFacts.
Import Filter SoilSpec.

Local Open Scope R_scope.

Lemma default_texture_ok (zone : string) : texture_ok (default_coefficients zone).
Proof. unfold texture_ok. simpl. lra. Qed.

Lemma sum_one_within (x : R) : x = 1 -> Rabs (x - 1) <= 1 / 10 ^ 9.
Proof.
  intros ->. replace (1 - 1) with 0 by lra. rewrite Rabs_R0.
  apply Rlt_le, Rdiv_lt_0_compat; [lra | apply pow_lt; lra].
Qed.

Lemma default_soil_invariant (zone : string) : soil_invariant (default_coefficients zone).
Proof.
  unfold soil_invariant. split; [simpl; lra|].
  split; [apply sum_one_within; simpl; lra | simpl; lra].
Qed.

(** After the shift both clamped fractions are positive, so the total the
    texture is divided by is positive. *)
Lemma shifted_texture_positive (residual rate : R) (c : SoilCoefficients) :
  texture_ok c -> 0 <= rate ->
  0 < fst (shifted_texture residual rate c)
  /\ 0 < snd (shifted_texture residual rate c).
Proof.
  intros (Hs & _ & Hc & _) Hrate. unfold shifted_texture.
  destruct (Rlt_dec 0 residual); simpl; unfold Rmin, Rmax;
    repeat destruct Rle_dec; split; nra.
Qed.

(** The hydraulics recomputed from a texture of positive fractions summing
    to 1 satisfy the invariant. *)
Lemma recalculated_invariant (s si cl : R) :
  0 < s -> 0 < si -> 0 < cl -> s + si + cl = 1 ->
  0.026 + 0.005 * cl <= 0.2576 - 0.002 * s + 0.0036 * cl <= 0.5
  /\ 0 < Rpower 10 (-0.6 + 1.3 * s - 0.6 * cl) * 100.
Proof.
  intros Hs Hsi Hcl Hsum. split; [split; lra|].
  unfold Rpower. pose proof (exp_pos ((-0.6 + 1.3 * s - 0.6 * cl) * ln 10)). lra.
Qed.

(** One update, from coefficients that satisfy the invariant with a texture
    of positive fractions: it does not raise, and its result satisfies both
    again. *)
Lemma update_preserves (residual rate : R) (c : SoilCoefficients) :
  texture_ok c -> soil_invariant c -> 0 <= rate ->
  exists c', update_from_residual residual rate c = Some c'
             /\ texture_ok c' /\ soil_invariant c'.
Proof.
  intros Htex Hinv Hrate. unfold update_from_residual.
  destruct (Rlt_dec (Rabs residual) 0.02); [exists c; auto|].
  destruct (shifted_texture_positive residual rate c Htex Hrate) as [Hsand Hclay].
  destruct (shifted_texture residual rate c) as [sand clay]. simpl in Hsand, Hclay.
  destruct Htex as (_ & Hsilt & _ & _).
  set (total := sand + silt_ratio c + clay).
  assert (Htotal : 0 < total) by (unfold total; lra).
  destruct (Req_dec_T total 0) as [Hz|_]; [lra|].
  eexists. split; [reflexivity|].
  assert (Hs : 0 < sand / total) by (apply Rdiv_lt_0_compat; assumption).
  assert (Hsi : 0 < silt_ratio c / total) by (apply Rdiv_lt_0_compat; assumption).
  assert (Hcl : 0 < clay / total) by (apply Rdiv_lt_0_compat; assumption).
  assert (Hsum : sand / total + silt_ratio c / total + clay / total = 1)
    by (unfold total; field; unfold total in Htotal; lra).
  destruct (recalculated_invariant _ _ _ Hs Hsi Hcl Hsum) as [Hfc Hk].
  split.
  - unfold texture_ok. simpl. auto.
  - unfold soil_invariant. simpl. split; [exact Hfc|]. split; [|exact Hk].
    apply sum_one_within, Hsum.
Qed.

Lemma apply_updates_preserves (updates : list (R * R)) (c : SoilCoefficients) :
  texture_ok c -> soil_invariant c ->
  Forall (fun u => 0 <= snd u) updates ->
  exists c', apply_updates updates c = Some c' /\ texture_ok c' /\ soil_invariant c'.
Proof.
  revert c. induction updates as [|[residual rate] rest IH]; intros c Htex Hinv Hall.
  - exists c. auto.
  - inversion Hall as [|u l Hrate Hrest]; subst. simpl in Hrate.
    destruct (update_preserves residual rate c Htex Hinv Hrate)
      as (c1 & Hstep & Htex1 & Hinv1).
    destruct (IH c1 Htex1 Hinv1 Hrest) as (c2 & Hrun & Htex2 & Hinv2).
    exists c2. simpl. rewrite Hstep. simpl. auto.
Qed.

End FilterFacts.

(** C6. Starting from a zone's default coefficients, every sequence of
    calls to [update_from_residual] with learning rates that are not
    negative runs without raising and ends on coefficients with wilting
    point <= field capacity <= 0.5, sand + silt + clay = 1 within 1e-9 and
    K_sat > 0; and one more such update from there keeps all three. *)
Theorem soil_parameters_invariant (zone : string) (updates : list (R * R)) :
  Forall (fun u => (0 <= snd u)%R) updates ->
  exists c,
    SoilSpec.apply_updates updates (Filter.default_coefficients zone) = Some c
    /\ SoilSpec.soil_invariant c
    /\ forall residual rate, (0 <= rate)%R ->
         exists c', Filter.update_from_residual residual rate c = Some c'
                    /\ SoilSpec.soil_invariant c'.
Proof.
  intros Hall.
  destruct (apply_updates_preserves updates (Filter.default_coefficients zone)
              (default_texture_ok zone) (default_soil_invariant zone) Hall)
    as (c & Hrun & Htex & Hinv).
  exists c. split; [exact Hrun|]. split; [exact Hinv|].
  intros residual rate Hrate.
  destruct (update_preserves residual rate c Htex Hinv Hrate) as (c' & H1 & _ & H3).
  exists c'. auto.
Qed.

Lemma soil_parameters_invariant_witness :
  exists c,
    SoilSpec.apply_updates [(0.05, 0.05); (-0.05, 0.05); (0.01, 0.05)]%R
      (Filter.default_coefficients "field_01") = Some c
    /\ SoilSpec.soil_invariant c.
Proof.
  destruct (soil_parameters_invariant "field_01"
              [(0.05, 0.05); (-0.05, 0.05); (0.01, 0.05)]%R) as (c & H1 & H2 & _).
  - repeat constructor; simpl; lra.
  - exists c. split; assumption.
Defined.

Section PredictFacts.
Import Filter SoilSpec.

Local Open Scope R_scope.

Lemma et_fraction_f_depth (depth : Z) : et_fraction depth = f_depth depth.
Proof.
  unfold et_fraction, f_depth.
  destruct (Z.leb_spec depth 18), (Z_le_dec depth 18); try lia; [reflexivity|].
  destruct (Z.leb_spec depth 36), (Z_le_dec depth 36); try lia; reflexivity.
Qed.

(** [get_or_create_coefficients] returns the zone's coefficients and leaves
    the prediction cache alone. *)
Lemma get_or_create_spec (zone : string) (self : RecursiveBayesianFilter) :
  snd (get_or_create_coefficients zone self) = zone_coefficients zone self
  /\ last_predictions (fst (get_or_create_coefficients zone self))
     = last_predictions self.
Proof.
  unfold get_or_create_coefficients, zone_coefficients.
  destruct (coefficients self !! zone); simpl; auto.
Qed.

End PredictFacts.

(** C7 (as the code has it). For every zone, location, depth and ET rate,
    every elapsed time that is not negative and every filter whose
    coefficient variance for the zone is not negative, [predict] returns,
    and caches under the zone and depth, a state with predicted VWC =
    baseline - ET loss - drainage clamped to [wilting point, 0.5], where
    the ET loss is (ET * hours / 24) / 1000 * f_depth, f_depth is 0.6 up to
    18 inches, 0.3 up to 36 and 0.1 below, drainage is
    min(excess, K_sat/100 * hours/24 * 0.1) above field capacity and 0
    otherwise; prediction variance = sigma^2 * (1 + hours/24) and
    confidence = 1 / (1 + variance). *)
Theorem predict_postcondition (now zone : string) (lat lon : R) (depth : Z)
    (et hours : R) (self : Filter.RecursiveBayesianFilter) :
  (0 <= hours)%R ->
  (0 <= Filter.coefficient_variance (SoilSpec.zone_coefficients zone self))%R ->
  exists self' st,
    Filter.predict now zone lat lon depth et hours self = Some (self', st)
    /\ Filter.predicted_vwc st
       = SoilSpec.expected_vwc (SoilSpec.zone_coefficients zone self)
           (SoilSpec.baseline zone depth self) et hours depth
    /\ Filter.prediction_variance st
       = (Filter.coefficient_variance (SoilSpec.zone_coefficients zone self)
          * (1 + hours / 24))%R
    /\ Filter.confidence st = (1 / (1 + Filter.prediction_variance st))%R
    /\ Filter.last_predictions self' !! Filter.prediction_key zone depth = Some st.
Proof.
  intros Hhours Hvar.
  unfold Filter.predict.
  destruct (get_or_create_spec zone self) as [Hc Hp].
  destruct (Filter.get_or_create_coefficients zone self) as [self1 coeffs].
  simpl in Hc, Hp. subst coeffs.
  set (c := SoilSpec.zone_coefficients zone self) in *.
  assert (Hpos : (0 <= Filter.coefficient_variance c * (1 + hours / 24))%R)
    by (apply Rmult_le_pos; lra).
  destruct (Req_dec_T _ 0) as [Hz|_]; [lra|].
  eexists _, _. split; [reflexivity|]. simpl.
  split; [|split; [reflexivity|split; [reflexivity|apply lookup_insert_eq]]].
  unfold SoilSpec.expected_vwc, SoilSpec.clamp, SoilSpec.baseline, SoilSpec.drainage.
  rewrite Hp, et_fraction_f_depth. fold c.
  f_equal. f_equal.
  destruct (Filter.last_predictions self !! Filter.prediction_key zone depth);
    destruct Rlt_dec; lra.
Qed.

Lemma predict_postcondition_witness :
  exists self' st,
    Filter.predict "2026-01-01T00:15:00" "field_01" 37.5 (-105.8) 18 5 0.25
      Filter.new_filter = Some (self', st)
    /\ Filter.predicted_vwc st
       = SoilSpec.expected_vwc (Filter.default_coefficients "field_01") 0.25 5 0.25 18.
Proof.
  destruct (predict_postcondition "2026-01-01T00:15:00" "field_01" 37.5 (-105.8) 18
              5 0.25 Filter.new_filter) as (self' & st & H1 & H2 & _).
  - lra.
  - change (0 <= 0.1)%R. lra.
  - exists self', st. split; [exact H1 | exact H2].
Defined.

(** C7 as stated fails: with the engine's own figures (ET 5 mm/day, a
    quarter of an hour, depth 18, a fresh zone at field capacity 0.25) the
    code predicts 0.24996875, the ET loss being 5 * 0.25 / 24 / 1000 * 0.6,
    where the claim's (ET * hours / 24) * f_depth gives 0.21875. *)
Lemma predict_et_loss_in_metres :
  exists self' st,
    Filter.predict "2026-01-01T00:15:00" "field_01" 37.5 (-105.8) 18 5 0.25
      Filter.new_filter = Some (self', st)
    /\ Filter.predicted_vwc st = 0.24996875%R
    /\ SoilSpec.claimed_vwc (Filter.default_coefficients "field_01") 0.25 5 0.25 18
       = 0.21875%R
    /\ Filter.predicted_vwc st
       <> SoilSpec.claimed_vwc (Filter.default_coefficients "field_01") 0.25 5 0.25 18.
Proof.
  assert (Hclaim : SoilSpec.claimed_vwc (Filter.default_coefficients "field_01")
                     0.25 5 0.25 18 = 0.21875%R).
  { unfold SoilSpec.claimed_vwc, SoilSpec.clamp, SoilSpec.drainage, SoilSpec.f_depth.
    simpl. destruct Rlt_dec; [lra|]. unfold Rmax, Rmin.
    repeat destruct Rle_dec; lra. }
  unfold Filter.predict.
  change (Filter.get_or_create_coefficients "field_01" Filter.new_filter)
    with ({| Filter.update_threshold := 0.03%R;
             Filter.learning_rate := 0.05%R;
             Filter.coefficients :=
               <["field_01"%string := Filter.default_coefficients "field_01"]> ∅;
             Filter.last_predictions := ∅;
             Filter.total_predictions := 0;
             Filter.total_updates := 0 |},
          Filter.default_coefficients "field_01").
  cbv beta iota. cbn [Filter.last_predictions]. rewrite lookup_empty.
  cbn [Filter.field_capacity Filter.coefficient_variance Filter.wilting_point
       Filter.ksat Filter.default_coefficients].
  destruct (Req_dec_T _ 0) as [Hz|_]; [lra|].
  eexists _, _. split; [reflexivity|].
  cbn [Filter.predicted_vwc]. rewrite Hclaim.
  assert (Hcode :
    Rmax 0.08
      (Rmin 0.5
         (0.25 - 5 / 24 * 0.25 / 1000 * Filter.et_fraction 18
          - (if Rlt_dec 0.25 0.25
             then Rmin (0.25 - 0.25) (10 / 100 * (0.25 / 24) * 0.1)
             else 0))) = 0.24996875%R).
  { change (Filter.et_fraction 18) with 0.6%R.
    destruct Rlt_dec; [lra|]. unfold Rmax, Rmin. repeat destruct Rle_dec; lra. }
  rewrite Hcode. repeat split; lra.
Qed.

(** * Properties of the kriging grid *)

Section KrigingFacts.
Import Kriging.



Lemma unhashed_compute_hash (t : string) (c : KrigingCell) :
  Grid.unhashed (compute_hash t c) = Grid.unhashed c.
Proof. reflexivity. Qed.




End KrigingFacts.




(** C9 (the code does not do this). Three readings at the requested depth,
    given with latitude, longitude and VWC and no sensor id: the grid point
    on the north-east corner lies on the second probe (distance 0, and 2 m
    from the first), and its cell is a hard anchor with variance 0 and
    confidence 1 whose VWC is 0.18, the reading of the first probe, not the
    0.22 of the probe it lies on. With distinct sensor ids the same cell
    takes 0.22. *)
Theorem hard_anchor_takes_first_reading :
  (fun c => (Qeq_bool (Kriging.latitude c) 37.50001,
             Qeq_bool (Kriging.longitude c) (-105.79998),
             Kriging.is_hard_anchor c,
             Kriging.anchor_sensor_id c, Kriging.estimated_vwc c,
             Kriging.estimation_variance c, Kriging.confidence c))
    <$> (Grid.run Grid.at_a_quarter_past Grid.probes ≫= Grid.north_east)
  = Some (true, true, true, Some "unknown"%string, 0.18%Q, 0%Q, 1%Q)
  /\ Kriging.distance Grid.engine (37.50001, -105.79998)%Q (37.50001, -105.79998)%Q
     = 0%Q
  /\ Kriging.argmin
       (List.map (Kriging.distance Grid.engine (37.50001, -105.79998)%Q)
          [(37.5, -105.8); (37.50001, -105.79998); (37.501, -105.799)]%Q) = 1%nat
  /\ (fun c => (Kriging.is_hard_anchor c, Kriging.anchor_sensor_id c,
                Kriging.estimated_vwc c))
       <$> (Grid.run Grid.at_a_quarter_past Grid.named_probes ≫= Grid.north_east)
     = Some (true, Some "field_01_hb_01"%string, 0.22%Q).
Proof. repeat split; vm_compute; reflexivity. Qed.

(** * Hard anchors when the sensor ids are distinct *)

Section AnchorFacts.
Import Kriging.

Lemma argmin_from_bound (l : list Q) (i best : nat) (v : Q) :
  (best < i)%nat -> (argmin_from i best v l < i + List.length l)%nat.
Proof.
  revert i best v. induction l as [|x l IH]; intros i best v Hlt; simpl; [lia|].
  destruct (Qltb x v).
  - specialize (IH (S i) i x). lia.
  - specialize (IH (S i) best v). lia.
Qed.

Lemma argmin_bound (l : list Q) : l <> [] -> (argmin l < List.length l)%nat.
Proof.
  destruct l as [|x l]; [congruence|]. intros _. simpl.
  pose proof (argmin_from_bound l 1 0 x). lia.
Qed.

(** With distinct ids, looking an id up finds the position it came from. *)
Lemma list_index_nth (ids : list string) (i : nat) :
  NoDup ids -> (i < List.length ids)%nat ->
  list_index (nth i ids ""%string) ids = Some i.
Proof.
  revert i. induction ids as [|a ids IH]; intros i Hnd Hi; simpl in Hi; [lia|].
  apply NoDup_cons in Hnd as [Hnotin Hnd].
  destruct i as [|i]; simpl.
  - rewrite String.eqb_refl. reflexivity.
  - assert (Hne : String.eqb a (nth i ids ""%string) = false).
    { apply String.eqb_neq. intros ->. apply Hnotin.
      apply list_elem_of_In, nth_In. lia. }
    rewrite Hne, IH by (assumption || lia). reflexivity.
Qed.

Lemma sensor_arrays_lengths (ms : list SensorMeasurement) (depth : Z)
    (coords : list (Q * Q)) (values : list Q) (ids : list string) :
  sensor_arrays ms depth = Some (coords, values, ids) ->
  List.length coords = List.length values /\ List.length ids = List.length values.
Proof.
  revert coords values ids. induction ms as [|m ms IH]; intros coords values ids H.
  - injection H as <- <- <-. auto.
  - simpl in H. destruct (bool_decide _); [|apply IH, H].
    destruct (sm_latitude m); simpl in H; [|discriminate].
    destruct (sm_longitude m); simpl in H; [|discriminate].
    destruct (sm_vwc m); simpl in H; [|discriminate].
    destruct (sensor_arrays ms depth) as [[[cs vs] ks]|]; simpl in H; [|discriminate].
    injection H as <- <- <-. destruct (IH cs vs ks eq_refl). simpl. lia.
Qed.

(** A cell keeps the coordinates of its grid point. *)
Lemma grid_cell_coords (self : RegressionKrigingEngine) (field : string) (depth : Z)
    (trend : option (Q -> Q -> Q)) (coords : list (Q * Q)) (values : list Q)
    (ids : list string) (detrended : list Q) (K_inv : list (list Q))
    (n : nat) (point : Q * Q) (cell : KrigingCell) :
  grid_cell self field depth trend coords values ids detrended K_inv n point
  = Some cell ->
  latitude cell = fst point /\ longitude cell = snd point.
Proof.
  unfold grid_cell. destruct point as [lat lon].
  destruct (_check_sensor_location self lat lon coords ids) as [anchor who].
  destruct anchor.
  - destruct (list_index _ ids); simpl; [|discriminate].
    intros H. injection H as <-. auto.
  - simpl. intros H. injection H as <-. auto.
Qed.

(** The anchor branch for one grid point. *)
Lemma grid_cell_anchor (self : RegressionKrigingEngine) (field : string) (depth : Z)
    (trend : option (Q -> Q -> Q)) (coords : list (Q * Q)) (values : list Q)
    (ids : list string) (detrended : list Q) (K_inv : list (list Q))
    (n : nat) (point : Q * Q) (cell : KrigingCell) :
  NoDup ids -> List.length ids = List.length coords -> coords <> [] ->
  grid_cell self field depth trend coords values ids detrended K_inv n point
  = Some cell ->
  let dist := List.map (distance self point) coords in
  (nth (argmin dist) dist 0 < 5)%Q ->
  is_hard_anchor cell = true
  /\ anchor_sensor_id cell = Some (nth (argmin dist) ids ""%string)
  /\ estimated_vwc cell = nth (argmin dist) values 0%Q
  /\ estimation_variance cell = 0%Q
  /\ confidence cell = 1%Q.
Proof.
  intros Hnd Hlen Hne Hcell dist Hnear. revert Hcell.
  unfold grid_cell, _check_sensor_location. destruct point as [lat lon].
  fold dist.
  assert (Hq : Qltb (nth (argmin dist) dist 0%Q) 5 = true).
  { unfold Qltb. apply negb_true_iff.
    destruct (Qle_bool 5 _) eqn:E; [|reflexivity].
    apply Qle_bool_iff in E. exfalso. exact (Qlt_not_le _ _ Hnear E). }
  rewrite Hq. simpl default.
  rewrite list_index_nth.
  - simpl. intros H. injection H as <-. simpl. auto.
  - exact Hnd.
  - rewrite Hlen, <- (length_map (distance self (lat, lon)) coords).
    apply argmin_bound. unfold dist. destruct coords; [congruence|discriminate].
Qed.

End AnchorFacts.

(** Hard-anchor exactness for readings with pairwise distinct sensor ids: in
    a grid generated from at least three readings at the requested depth,
    every cell whose grid point is less than 5 m (by the engine's own
    distance) from the nearest reading is a hard anchor with that reading's
    VWC exactly, variance 0 and confidence 1. *)
Theorem hard_anchor_exact_with_distinct_ids (clock : nat -> string)
    (self : Kriging.RegressionKrigingEngine) (field : string)
    (field_bounds : Q * Q * Q * Q)
    (sensor_measurements : list Kriging.SensorMeasurement)
    (trend : option (Q -> Q -> Q)) (depth : Z)
    (coords : list (Q * Q)) (values : list Q) (ids : list string)
    (cells : list Kriging.KrigingCell) (n : nat) (cell : Kriging.KrigingCell) :
  Kriging.sensor_arrays sensor_measurements depth = Some (coords, values, ids) ->
  (3 <= List.length values)%nat ->
  NoDup ids ->
  Kriging.generate_virtual_grid clock self field field_bounds sensor_measurements
    trend depth = Some cells ->
  cells !! n = Some cell ->
  let dist :=
    List.map (Kriging.distance self (Kriging.latitude cell, Kriging.longitude cell))
      coords in
  (nth (Kriging.argmin dist) dist 0 < 5)%Q ->
  Kriging.is_hard_anchor cell = true
  /\ Kriging.anchor_sensor_id cell = Some (nth (Kriging.argmin dist) ids ""%string)
  /\ Kriging.estimated_vwc cell = nth (Kriging.argmin dist) values 0%Q
  /\ Kriging.estimation_variance cell = 0%Q
  /\ Kriging.confidence cell = 1%Q.
Proof.
  intros Harrays Hthree Hnd Hgrid Hcell.
  destruct (sensor_arrays_lengths _ _ _ _ _ Harrays) as [Hlc Hli].
  unfold Kriging.generate_virtual_grid in Hgrid.
  destruct field_bounds as [[[min_lat min_lon] max_lat] max_lon].
  destruct (Kriging.grid_dimensions self _) as [[n_lat n_lon]|];
    simpl in Hgrid; [|discriminate].
  rewrite Harrays in Hgrid. simpl in Hgrid.
  destruct (Nat.ltb_spec (List.length values) 3) as [Hlt|_]; [lia|].
  destruct (Kriging.linspace min_lat max_lat n_lat) as [lat_grid|];
    simpl in Hgrid; [|discriminate].
  destruct (Kriging.linspace min_lon max_lon n_lon) as [lon_grid|];
    simpl in Hgrid; [|discriminate].
  destruct (mapM _ _) as [raw|] eqn:Hraw; simpl in Hgrid; [|discriminate].
  injection Hgrid as <-.
  rewrite list_lookup_imap in Hcell.
  destruct (raw !! n) as [c0|] eqn:Hc0; simpl in Hcell; [|discriminate].
  injection Hcell as <-.
  apply mapM_Some in Hraw.
  destruct (Forall2_lookup_r _ _ _ _ _ Hraw Hc0) as ([k point] & Hpoint & Hmade).
  destruct (grid_cell_coords _ _ _ _ _ _ _ _ _ _ _ _ Hmade) as [Hlat Hlon].
  simpl Kriging.latitude. simpl Kriging.longitude.
  rewrite Hlat, Hlon, <- surjective_pairing.
  intros dist Hnear.
  apply (grid_cell_anchor _ _ _ _ _ _ _ _ _ _ _ _ Hnd) in Hmade.
  - exact Hmade.
  - lia.
  - destruct coords; [simpl in *; lia|discriminate].
  - exact Hnear.
Qed.


Lemma hard_anchor_exact_with_distinct_ids_witness :
  exists cell,
    Grid.run Grid.at_a_quarter_past Grid.named_probes ≫= Grid.north_east = Some cell
    /\ Kriging.is_hard_anchor cell = true
    /\ Kriging.estimated_vwc cell = 0.22%Q.
Proof.
  destruct (Grid.run Grid.at_a_quarter_past Grid.named_probes) as [cells|] eqn:Hrun;
    [|vm_compute in Hrun; discriminate Hrun].
  pose proof Hrun as Hcells. vm_compute in Hcells. injection Hcells as Hcells.
  subst cells.
  eexists. split; [reflexivity|].
  edestruct (hard_anchor_exact_with_distinct_ids Grid.at_a_quarter_past Grid.engine
               "field_01" Grid.bounds Grid.named_probes None 18)
    with (n := 3%nat) as (Ha & _ & Hv & _).
  - reflexivity.
  - simpl. lia.
  - apply (bool_decide_unpack _). vm_compute. reflexivity.
  - exact Hrun.
  - reflexivity.
  - vm_compute. reflexivity.
  - split; [exact Ha|]. rewrite Hv. vm_compute. reflexivity.
Defined.

(** * More properties of the forensic hasher *)

Section MerkleFacts.
Import Integrity.

Lemma merkle_loop_more_fuel (fuel extra : nat) (level : list string) (root : string) :
  merkle_loop fuel level = [root] -> merkle_loop (fuel + extra) level = [root].
Proof.
  revert level. induction fuel as [|fuel IH]; intros level H.
  - simpl in H. subst level. destruct extra; reflexivity.
  - simpl in *. destruct (Nat.ltb 1 (List.length level)); [apply IH, H | exact H].
Qed.

End MerkleFacts.

(** The loop of [_compute_merkle_root] terminates: for every non-empty list
    of hashes, [len(hashes)] turns of the [while] leave exactly one hash,
    that hash is the root returned, and further turns would not change
    it. *)
Theorem merkle_root_terminates (hashes : list string) (extra : nat) :
  hashes <> [] ->
  exists root,
    Integrity.merkle_loop (List.length hashes) hashes = [root]
    /\ Integrity.merkle_loop (List.length hashes + extra) hashes = [root]
    /\ Integrity._compute_merkle_root hashes = root.
Proof.
  intros Hne.
  destruct (merkle_loop_singleton (List.length hashes) hashes Hne ltac:(lia))
    as [root Hroot].
  exists root. split; [exact Hroot|]. split.
  - apply merkle_loop_more_fuel, Hroot.
  - unfold Integrity._compute_merkle_root.
    destruct hashes as [|a [|b rest]]; [congruence| |].
    + simpl in Hroot. congruence.
    + rewrite Hroot. reflexivity.
Qed.

Lemma merkle_root_terminates_witness :
  exists root,
    Integrity.merkle_loop 3 ["a"; "b"; "c"]%string = [root]
    /\ Integrity._compute_merkle_root ["a"; "b"; "c"]%string = root.
Proof.
  destruct (merkle_root_terminates ["a"; "b"; "c"]%string 0) as (root & H1 & _ & H3).
  - discriminate.
  - exists root. split; [exact H1 | exact H3].
Defined.

Section ChainFacts.
Import Integrity ChainSpec.

Lemma last_default_irrelevant {A} (l : list A) (a d d' : A) :
  List.last (a :: l) d = List.last (a :: l) d'.
Proof.
  revert a. induction l as [|b l IH]; intros a; [reflexivity|].
  change (List.last (b :: l) d = List.last (b :: l) d'). apply IH.
Qed.

(** The verifier's loop, in terms of the hashes it recomputes. *)
Lemma verify_loop_spec (measurements : list pydict) (previous : string)
    (acc : list VerificationResult) (final : string)
    (results : list VerificationResult) :
  verify_loop measurements previous acc = Some (final, results) ->
  exists hs rs,
    verifier_hashes measurements previous = Some hs
    /\ results = acc ++ rs
    /\ final = List.last hs previous
    /\ Forall2 (fun m r => hash_valid r = true <-> exists h, stores m h /\ computed_hash r = h)
         measurements rs
    /\ List.map computed_hash rs = hs.
Proof.
  revert previous acc final results.
  induction measurements as [|m rest IH]; intros previous acc final results H.
  - simpl in H. injection H as <- <-. exists [], []. simpl.
    rewrite app_nil_r. repeat split; constructor.
  - simpl in H.
    destruct (hash_measurement _ _ _ _ previous (Some m)) as [computed|] eqn:Hc;
      simpl in H; [|discriminate].
    destruct (if truthy _ then _ else _) as [prefix_ok|]; simpl in H; [|discriminate].
    destruct (IH _ _ _ _ H) as (hs & rs & Hhs & Hres & Hfinal & Hall & Hmap).
    eexists (computed :: hs), (_ :: rs). simpl. rewrite Hc. simpl. rewrite Hhs. simpl.
    split; [reflexivity|]. split; [rewrite Hres, <- app_assoc; reflexivity|].
    split; [rewrite Hfinal; destruct hs; [reflexivity|apply last_default_irrelevant]|].
    split; [|simpl; rewrite Hmap; reflexivity].
    constructor; [|exact Hall]. simpl. unfold stores, str_eq.
    destruct (get m "measurement_hash" (PStr "")) as [| | | |s]; split;
      try discriminate; try (intros (h & Hh & _); discriminate).
    + intros E. apply String.eqb_eq in E. subst. eauto.
    + intros (h & Hh & <-). injection Hh as ->. apply String.eqb_refl.
Qed.

End ChainFacts.

Section ChainVerdict.
Import Integrity ChainSpec.

Lemma filter_all_length {A} (p : A -> bool) (l : list A) :
  List.length (List.filter p l) = List.length l <-> Forall (fun x => p x = true) l.
Proof.
  induction l as [|x l IH]; simpl.
  - split; [constructor | reflexivity].
  - destruct (p x) eqn:E; simpl.
    + split.
      * intros H. constructor; [exact E | apply IH; lia].
      * intros H. inversion H; subst. f_equal. apply IH. assumption.
    + split.
      * intros H. pose proof (filter_length_le p l). lia.
      * intros H. inversion H; subst. congruence.
Qed.

Lemma all_valid_iff_stored (measurements : list pydict)
    (rs : list VerificationResult) :
  Forall2 (fun m r => hash_valid r = true <-> exists h, stores m h /\ computed_hash r = h)
    measurements rs ->
  Forall (fun r => hash_valid r = true) rs
  <-> Forall2 stores measurements (List.map computed_hash rs).
Proof.
  induction 1 as [|m r ms rs Hmr Hrest IH]; simpl.
  - split; constructor.
  - split.
    + intros H. inversion H; subst. constructor; [|apply IH; assumption].
      destruct (proj1 Hmr ltac:(assumption)) as (h & Hs & <-). exact Hs.
    + intros H. inversion H; subst. constructor; [|apply IH; assumption].
      apply Hmr. eauto.
Qed.

Lemma batch_hashes_verifier (measurements : list pydict) (previous : string)
    (hs : list string) :
  batch_hashes measurements previous = Some hs ->
  verifier_hashes measurements previous = Some hs.
Proof.
  revert previous hs. induction measurements as [|m rest IH]; intros previous hs H.
  - exact H.
  - cbn [batch_hashes] in H. cbn [verifier_hashes]. unfold get.
    destruct (m !! "sensor_id"%string) as [sensor|]; [|discriminate].
    destruct (m !! "timestamp"%string) as [stamp|]; [|discriminate].
    destruct (m !! "depth_inches"%string) as [depth|]; [|discriminate].
    destruct (m !! "volumetric_water_content"%string) as [vwc|]; [|discriminate].
    cbn [mbind option_bind default from_option] in *. unfold Datatypes.id.
    destruct (hash_measurement sensor stamp depth vwc previous (Some m)) as [h|];
      [|discriminate].
    cbn [mbind option_bind] in *.
    destruct (batch_hashes rest h) as [later|] eqn:Hl; [|discriminate].
    rewrite (IH _ _ Hl). exact H.
Qed.

(** A chain whose stored hashes are those recomputed never makes the
    verifier's loop raise. *)
Lemma verify_loop_stored (measurements : list pydict) (previous : string)
    (hs : list string) (acc : list VerificationResult) :
  verifier_hashes measurements previous = Some hs ->
  Forall2 stores measurements hs ->
  exists results, verify_loop measurements previous acc = Some (List.last hs previous, results).
Proof.
  revert previous hs acc.
  induction measurements as [|m rest IH]; intros previous hs acc Hhs Hst.
  - injection Hhs as <-. eexists. reflexivity.
  - simpl in Hhs. simpl.
    destruct (hash_measurement _ _ _ _ previous (Some m)) as [computed|];
      simpl in *; [|discriminate].
    destruct (verifier_hashes rest computed) as [later|] eqn:Hl; simpl in Hhs;
      [|discriminate].
    injection Hhs as <-. inversion Hst as [|? ? ? ? Hm Hrest]; subst.
    unfold stores in Hm. rewrite Hm.
    destruct (truthy (PStr computed)); cbn [mbind option_bind];
      match goal with
      | |- exists results, verify_loop rest computed ?a = _ =>
          destruct (IH computed later a Hl Hrest) as [results Hr]
      end;
      exists results; rewrite Hr; destruct later;
      [reflexivity | f_equal; f_equal; exact (last_default_irrelevant _ _ _ _)
      |reflexivity | f_equal; f_equal; exact (last_default_irrelevant _ _ _ _)].
Qed.

End ChainVerdict.

(** What [valid] means. When [verify_chain_integrity] returns a report for a
    non-empty chain, the report counts every record, its computed final hash
    is the last of the hashes recomputed along the chain from the expected
    first hash, and [valid] is true exactly when the expected last hash is
    that hash and every record stores the hash recomputed for it: one
    altered stored hash, or a wrong expected last hash, makes it false. *)
Theorem verify_chain_valid_iff (now : string) (measurements : list pydict)
    (first last : string) (r : Integrity.ChainReport) :
  measurements <> [] ->
  Integrity.verify_chain_integrity now measurements first last = Some r ->
  exists hs,
    ChainSpec.verifier_hashes measurements first = Some hs
    /\ Integrity.chain_length r = List.length measurements
    /\ Integrity.computed_final_hash r = Some (List.last hs first)
    /\ (Integrity.valid r = true
        <-> last = List.last hs first
            /\ Forall2 ChainSpec.stores measurements hs).
Proof.
  intros Hne Hr. unfold Integrity.verify_chain_integrity in Hr.
  destruct measurements as [|m rest]; [congruence|].
  destruct (Integrity.verify_loop (m :: rest) first []) as [[final results]|] eqn:Hloop;
    simpl in Hr; [|discriminate].
  injection Hr as <-.
  destruct (verify_loop_spec _ _ _ _ _ Hloop) as (hs & rs & Hhs & Hres & Hfinal & Hall & Hmap).
  simpl in Hres. subst results final.
  exists hs. split; [exact Hhs|]. simpl.
  split; [symmetry; apply (Forall2_length _ _ _ Hall)|]. split; [reflexivity|].
  rewrite andb_true_iff, String.eqb_eq, Nat.eqb_eq, filter_all_length.
  rewrite (all_valid_iff_stored _ _ Hall), Hmap.
  split; intros [H1 H2]; split; auto.
Qed.

Lemma verify_chain_valid_iff_witness :
  exists r,
    Integrity.verify_chain_integrity "2026-01-01T00:30:00"
      [Sealed.probe "2026-01-01T00:00:00" 0.25]
      Integrity.genesis_hash Integrity.genesis_hash = Some r
    /\ Integrity.chain_length r = 1%nat.
Proof.
  destruct (Integrity.verify_chain_integrity "2026-01-01T00:30:00"
              [Sealed.probe "2026-01-01T00:00:00" 0.25]
              Integrity.genesis_hash Integrity.genesis_hash) as [r|] eqn:Hr;
    [|vm_compute in Hr; discriminate Hr].
  exists r. split; [reflexivity|].
  destruct (verify_chain_valid_iff "2026-01-01T00:30:00"
              [Sealed.probe "2026-01-01T00:00:00" 0.25]
              Integrity.genesis_hash Integrity.genesis_hash r)
    as (hs & _ & Hlength & _).
  - discriminate.
  - exact Hr.
  - exact Hlength.
Defined.

(** The verifier accepts what [hash_batch] hashes. If every record of a
    non-empty chain stores, as its own-hash, the hash [hash_batch] computes
    for it (each record hashed with itself as additional data against the
    hash of the one before), then [verify_chain_integrity] from the same
    previous hash and with the last of those hashes returns [valid = true]
    with every hash valid. *)
Theorem verify_accepts_sealed_chain (now : string) (measurements : list pydict)
    (previous : string) (hs : list string) :
  measurements <> [] ->
  Integrity.batch_hashes measurements previous = Some hs ->
  Forall2 (fun m h => m !! "measurement_hash"%string = Some (PStr h)) measurements hs ->
  exists r,
    Integrity.verify_chain_integrity now measurements previous (List.last hs previous)
    = Some r
    /\ Integrity.valid r = true
    /\ Integrity.chain_length r = List.length measurements
    /\ Integrity.valid_hashes r = Some (List.length measurements).
Proof.
  intros Hne Hbatch Hstored.
  pose proof (batch_hashes_verifier _ _ _ Hbatch) as Hhs.
  assert (Hst : Forall2 ChainSpec.stores measurements hs).
  { eapply Forall2_impl; [exact Hstored|]. intros m h Hm.
    unfold ChainSpec.stores, Integrity.get. rewrite Hm. reflexivity. }
  destruct (verify_loop_stored measurements previous hs [] Hhs Hst) as [results Hloop].
  assert (Hsome : exists r, Integrity.verify_chain_integrity now measurements previous
                              (List.last hs previous) = Some r).
  { unfold Integrity.verify_chain_integrity.
    destruct measurements; [congruence|]. rewrite Hloop. eexists. reflexivity. }
  destruct Hsome as [r Hr]. exists r. split; [exact Hr|].
  destruct (verify_loop_spec _ _ _ _ _ Hloop)
    as (hs' & rs & Hhs' & Hres & _ & Hall & Hmap).
  rewrite Hhs in Hhs'. injection Hhs' as <-. simpl in Hres. subst results.
  assert (Hvalid : List.length (List.filter Integrity.hash_valid rs) = List.length rs).
  { apply filter_all_length, (all_valid_iff_stored _ _ Hall). rewrite Hmap. exact Hst. }
  assert (Hlen : List.length rs = List.length measurements)
    by (symmetry; apply (Forall2_length _ _ _ Hall)).
  unfold Integrity.verify_chain_integrity in Hr.
  destruct measurements as [|m rest]; [congruence|].
  rewrite Hloop in Hr. cbn [mbind option_bind] in Hr. injection Hr as <-.
  cbn [Integrity.valid Integrity.chain_length Integrity.valid_hashes].
  rewrite Hvalid, Hlen, String.eqb_refl, Nat.eqb_refl. repeat split.
Qed.

Lemma verify_accepts_sealed_chain_witness :
  exists r,
    Integrity.verify_chain_integrity "2026-01-01T00:30:00" Sealed.chain
      Integrity.genesis_hash (List.last Sealed.hashes Integrity.genesis_hash)
    = Some r
    /\ Integrity.valid r = true.
Proof.
  destruct (verify_accepts_sealed_chain "2026-01-01T00:30:00" Sealed.chain
              Integrity.genesis_hash Sealed.hashes) as (r & Hr & Hv & _).
  - discriminate.
  - vm_compute. reflexivity.
  - unfold Sealed.chain, Sealed.hashes, Sealed.seal, Sealed.second_hash,
      Sealed.first_hash.
    repeat constructor; apply lookup_insert_eq.
  - exists r. split; [exact Hr | exact Hv].
Defined.

(** * The shape of the digests *)

Section DigestShape.
Import HexSpec.

Lemma be_bytes_range (n : nat) (x : Z) : Forall byte_range (SHA256.be_bytes n x).
Proof.
  induction n as [|n IH]; simpl; constructor; [|exact IH].
  unfold byte_range. change 255 with (Z.ones 8). rewrite Z.land_ones by lia.
  pose proof (Z.mod_pos_bound (Z.shiftr x (8 * Z.of_nat n)) (2 ^ 8)). lia.
Qed.

Lemma be_bytes_length (n : nat) (x : Z) : List.length (SHA256.be_bytes n x) = n.
Proof. induction n as [|n IH]; simpl; congruence. Qed.

Lemma compress_length (h block : list Z) :
  List.length h = 8%nat -> List.length (SHA256.compress h block) = 8%nat.
Proof.
  intros Hh. unfold SHA256.compress.
  rewrite length_map, length_combine, Hh. reflexivity.
Qed.

Lemma blocks_length (n : nat) (h bs : list Z) :
  List.length h = 8%nat -> List.length (SHA256.blocks n h bs) = 8%nat.
Proof.
  revert h bs. induction n as [|n IH]; intros h bs Hh; simpl; [exact Hh|].
  apply IH, compress_length, Hh.
Qed.

Lemma digest_range (msg : list Z) : Forall byte_range (SHA256.digest msg).
Proof.
  unfold SHA256.digest. apply Forall_flat_map, Forall_forall.
  intros x _. apply be_bytes_range.
Qed.

Lemma digest_length (msg : list Z) : List.length (SHA256.digest msg) = 32%nat.
Proof.
  unfold SHA256.digest.
  pose proof (blocks_length (Nat.div (List.length (SHA256.pad msg)) 64) SHA256.H0
                (SHA256.pad msg) eq_refl) as H8.
  destruct (SHA256.blocks _ _ _) as [|a [|b [|c [|d [|e [|f [|g [|h [|]]]]]]]]];
    try discriminate H8.
  reflexivity.
Qed.

Lemma hex_digit_is_hex (d : Z) : 0 <= d < 16 -> is_hex_char (Text.hex_digit d) = true.
Proof.
  intros Hd.
  assert (H : d = 0 \/ d = 1 \/ d = 2 \/ d = 3 \/ d = 4 \/ d = 5 \/ d = 6 \/ d = 7
              \/ d = 8 \/ d = 9 \/ d = 10 \/ d = 11 \/ d = 12 \/ d = 13 \/ d = 14
              \/ d = 15) by lia.
  repeat (destruct H as [->|H]; [reflexivity|]). subst. reflexivity.
Qed.

Lemma hex_shape (bs : list Z) :
  Forall byte_range bs ->
  String.length (Bytes.hex bs) = (2 * List.length bs)%nat /\ is_hex (Bytes.hex bs) = true.
Proof.
  induction 1 as [|b bs Hb Hbs [IHl IHh]]; [split; reflexivity|].
  split; [simpl; rewrite IHl; lia|].
  unfold is_hex in *. simpl. rewrite IHh, !hex_digit_is_hex; [reflexivity| |].
  - change 15 with (Z.ones 4). rewrite Z.land_ones by lia.
    pose proof (Z.mod_pos_bound b (2 ^ 4)). lia.
  - unfold byte_range in Hb. rewrite Z.shiftr_div_pow2 by lia.
    split; [apply Z.div_pos; lia | apply Z.div_lt_upper_bound; lia].
Qed.

Lemma sha256_hex_shape (s : string) : hex64 (sha256_hex s).
Proof.
  destruct (hex_shape _ (digest_range (Bytes.encode s))) as [Hl Hh].
  split; [|exact Hh]. unfold sha256_hex. rewrite Hl, digest_length. reflexivity.
Qed.

Lemma hmac_hex_shape (key msg : string) : hex64 (hmac_sha256_hex key msg).
Proof.
  unfold hmac_sha256_hex, SHA256.hmac.
  destruct (hex_shape _ (digest_range
    (SHA256.xor_pad 92
       (if 64 <? Z.of_nat (List.length (Bytes.encode key))
        then SHA256.digest (Bytes.encode key) else Bytes.encode key)
     ++ SHA256.digest
          (SHA256.xor_pad 54
             (if 64 <? Z.of_nat (List.length (Bytes.encode key))
              then SHA256.digest (Bytes.encode key) else Bytes.encode key)
           ++ Bytes.encode msg)))) as [Hl Hh].
  split; [|exact Hh]. rewrite Hl, digest_length. reflexivity.
Qed.

Lemma hash_measurement_shape (sensor_id timestamp depth_inches vwc : pyval)
    (previous : string) (extra : option pydict) (h : string) :
  Integrity.hash_measurement sensor_id timestamp depth_inches vwc previous extra
  = Some h -> hex64 h.
Proof.
  unfold Integrity.hash_measurement.
  destruct (Integrity.round_value vwc 6); simpl; [|discriminate].
  intros [= <-]. apply sha256_hex_shape.
Qed.

Lemma batch_hashes_shape (measurements : list pydict) (previous : string)
    (hs : list string) :
  Integrity.batch_hashes measurements previous = Some hs -> Forall hex64 hs.
Proof.
  revert previous hs. induction measurements as [|m rest IH]; intros previous hs H.
  - injection H as <-. constructor.
  - cbn [Integrity.batch_hashes] in H.
    destruct (m !! "sensor_id"%string) as [sensor|]; [|discriminate].
    destruct (m !! "timestamp"%string) as [stamp|]; [|discriminate].
    destruct (m !! "depth_inches"%string) as [depth|]; [|discriminate].
    destruct (m !! "volumetric_water_content"%string) as [vwc|]; [|discriminate].
    cbn [mbind option_bind] in H.
    destruct (Integrity.hash_measurement sensor stamp depth vwc previous (Some m))
      as [h|] eqn:Hh; [|discriminate].
    cbn [mbind option_bind] in H.
    destruct (Integrity.batch_hashes rest h) as [later|] eqn:Hl; [|discriminate].
    injection H as <-. constructor; [|eapply IH, Hl].
    eapply hash_measurement_shape, Hh.
Qed.

Lemma batch_hashes_length (measurements : list pydict) (previous : string)
    (hs : list string) :
  Integrity.batch_hashes measurements previous = Some hs ->
  List.length hs = List.length measurements.
Proof.
  revert previous hs. induction measurements as [|m rest IH]; intros previous hs H.
  - injection H as <-. reflexivity.
  - cbn [Integrity.batch_hashes] in H.
    destruct (m !! "sensor_id"%string) as [sensor|]; [|discriminate].
    destruct (m !! "timestamp"%string) as [stamp|]; [|discriminate].
    destruct (m !! "depth_inches"%string) as [depth|]; [|discriminate].
    destruct (m !! "volumetric_water_content"%string) as [vwc|]; [|discriminate].
    cbn [mbind option_bind] in H.
    destruct (Integrity.hash_measurement sensor stamp depth vwc previous (Some m))
      as [h|]; [|discriminate].
    cbn [mbind option_bind] in H.
    destruct (Integrity.batch_hashes rest h) as [later|] eqn:Hl; [|discriminate].
    injection H as <-. simpl. f_equal. eapply IH, Hl.
Qed.

Lemma pair_level_shape (level : list string) : Forall hex64 (Integrity.pair_level level).
Proof.
  assert (H : forall n (l : list string), (List.length l <= n)%nat ->
                Forall hex64 (Integrity.pair_level l)).
  { induction n as [|n IH]; intros l Hl.
    - destruct l; [constructor | simpl in Hl; lia].
    - destruct l as [|a [|b rest]]; simpl.
      + constructor.
      + constructor; [apply sha256_hex_shape | constructor].
      + constructor; [apply sha256_hex_shape | apply IH; simpl in Hl; lia]. }
  apply (H (List.length level)). lia.
Qed.

Lemma merkle_loop_shape (fuel : nat) (level : list string) :
  Forall hex64 level -> Forall hex64 (Integrity.merkle_loop fuel level).
Proof.
  revert level. induction fuel as [|fuel IH]; intros level H; simpl; [exact H|].
  destruct (Nat.ltb 1 (List.length level)); [apply IH, pair_level_shape | exact H].
Qed.

Lemma merkle_root_shape (hashes : list string) :
  Forall hex64 hashes -> hex64 (Integrity._compute_merkle_root hashes).
Proof.
  intros H. unfold Integrity._compute_merkle_root.
  destruct hashes as [|a [|b more]].
  - split; reflexivity.
  - inversion H; assumption.
  - pose proof (merkle_loop_shape (List.length (a :: b :: more)) _ H) as Hl.
    destruct (Integrity.merkle_loop _ _) as [|root rest].
    + split; reflexivity.
    + inversion Hl; assumption.
Qed.

End DigestShape.

(** Every hash [hash_batch] produces for a non-empty batch is a digest of 64
    lowercase hexadecimal characters: each measurement hash, the Merkle root
    and the batch hash; and there is one measurement hash per record. *)
Theorem hash_batch_shape (measurements : list pydict) (previous timestamp : string)
    (batch_hash merkle_root : string) :
  measurements <> [] ->
  Integrity.hash_batch measurements previous timestamp = Some (batch_hash, merkle_root) ->
  HexSpec.hex64 batch_hash /\ HexSpec.hex64 merkle_root
  /\ exists hs, Integrity.batch_hashes measurements previous = Some hs
                /\ List.length hs = List.length measurements
                /\ Forall HexSpec.hex64 hs
                /\ merkle_root = Integrity._compute_merkle_root hs.
Proof.
  intros Hne H. unfold Integrity.hash_batch in H.
  destruct measurements as [|m rest]; [congruence|].
  destruct (Integrity.batch_hashes (m :: rest) previous) as [hs|] eqn:Hhs;
    cbn [mbind option_bind] in H; [|discriminate].
  apply (inj Some), pair_equal_spec in H. destruct H as [<- <-].
  pose proof (batch_hashes_shape _ _ _ Hhs) as Hall.
  split; [apply sha256_hex_shape|]. split; [apply merkle_root_shape, Hall|].
  exists hs. split; [reflexivity|]. split; [apply (batch_hashes_length _ _ _ Hhs)|].
  split; [exact Hall | reflexivity].
Qed.

Lemma hash_batch_shape_witness :
  exists batch_hash merkle_root,
    Integrity.hash_batch Sealed.chain Integrity.genesis_hash "2026-01-01T00:30:00"
    = Some (batch_hash, merkle_root)
    /\ HexSpec.hex64 batch_hash /\ HexSpec.hex64 merkle_root.
Proof.
  destruct (Integrity.hash_batch Sealed.chain Integrity.genesis_hash
              "2026-01-01T00:30:00") as [[batch_hash merkle_root]|] eqn:H;
    [|vm_compute in H; discriminate H].
  exists batch_hash, merkle_root. split; [reflexivity|].
  destruct (hash_batch_shape Sealed.chain Integrity.genesis_hash
              "2026-01-01T00:30:00" batch_hash merkle_root) as (Hb & Hr & _).
  - discriminate.
  - exact H.
  - split; [exact Hb | exact Hr].
Defined.
